(** * MantraLekhan: the page/cell grid of [frontend/src/App.jsx]

    A shallow embedding of the component's state handlers and of its PDF
    layout.  The page arrays are the only objects the component mutates in
    place ([newPages[pageIndex][cellIndex] = value]), so they live in a
    store and the React state [pages] is a list of references into it.
    Handlers are computations in a small state-and-exception monad over
    the browser-side world. *)

From Stdlib Require Import Floats.SpecFloat.
From Stdlib Require DecimalString DecimalNat.
From stdpp Require Import base list strings.

Set Warnings "-register-all".

(** ** JavaScript values *)

(** The values a cell can hold.  [JSON.parse] yields null, booleans,
    numbers (IEEE doubles), strings, arrays and objects; [JUndefined] is
    what reading past the end of an array gives. *)
Inductive JsVal : Type :=
  | JUndefined
  | JNull
  | JBool (b : bool)
  | JNum (x : spec_float)
  | JStr (s : string)
  | JArr (elems : list JsVal)
  | JObj (fields : list (string * JsVal)).

(** ToBoolean: the falsy values are undefined, null, false, +0, -0, NaN
    and the empty string. *)
Definition truthy (v : JsVal) : bool :=
  match v with
  | JUndefined | JNull => false
  | JBool b => b
  | JNum (S754_zero _) | JNum S754_nan => false
  | JNum _ => true
  | JStr EmptyString => false
  | JStr _ => true
  | JArr _ | JObj _ => true
  end.

(** [a || b] *)
Definition js_or (a b : JsVal) : JsVal := if truthy a then a else b.

(** ** Constants of the module *)

Definition cellsPerPage : nat := 100.
Definition columns : nat := 5.
Definition maxPages : nat := 5.

(** [Array(cellsPerPage).fill('')] *)
Definition blankPage : list JsVal := replicate cellsPerPage (JStr EmptyString).

(** ** The world the handlers run in *)

Record World : Type := mkWorld {
  store : list (list JsVal);      (* page arrays, addressed by reference *)
  pages : list nat;               (* React state [pages]: references *)
  focus : option (nat * nat);     (* the focused input [#cell-p-c] *)
  alerts : list string;           (* messages shown by [alert] *)
  console : list string           (* messages of [console.error] *)
}.

Definition emptyWorld : World :=
  {| store := []; pages := []; focus := None; alerts := []; console := [] |}.

(** A computation ends normally with a value, or throws; either way the
    mutations done so far stay. *)
Inductive Res (A : Type) : Type :=
  | Ok (a : A) (w : World)
  | Throw (w : World).
Arguments Ok {A} a w.
Arguments Throw {A} w.

Definition M (A : Type) : Type := World -> Res A.

#[global] Instance M_ret : MRet M := fun A a w => Ok a w.
#[global] Instance M_bind : MBind M := fun A B f m w =>
  match m w with
  | Ok a w' => f a w'
  | Throw w' => Throw w'
  end.

Definition throw {A : Type} : M A := fun w => Throw w.

Definition world_of {A : Type} (r : Res A) : World :=
  match r with Ok _ w => w | Throw w => w end.

(** *** React state *)

Definition getPages : M (list nat) := fun w => Ok (pages w) w.

Definition setPages (ps : list nat) : M unit := fun w =>
  Ok tt {| store := store w; pages := ps; focus := focus w;
           alerts := alerts w; console := console w |}.

(** *** Arrays in the store *)

(** A new array object; its reference is the next free slot. *)
Definition alloc (arr : list JsVal) : M nat := fun w =>
  Ok (length (store w))
     {| store := store w ++ [arr]; pages := pages w; focus := focus w;
        alerts := alerts w; console := console w |}.

(** [arr[i] = v] on a JavaScript array: in range it overwrites, past the
    end it grows the array, the skipped slots reading as undefined. *)
Definition array_put (arr : list JsVal) (i : nat) (v : JsVal) : list JsVal :=
  if decide (i < length arr) then <[i:=v]> arr
  else arr ++ replicate (i - length arr) JUndefined ++ [v].

(** [arr[i]]: undefined out of range. *)
Definition array_at (arr : list JsVal) (i : nat) : JsVal :=
  default JUndefined (arr !! i).

(** [page[i]] through a reference.  A reference the store does not hold
    cannot arise in JavaScript; the model throws there. *)
Definition array_get (ref i : nat) : M JsVal := fun w =>
  match store w !! ref with
  | Some arr => Ok (array_at arr i) w
  | None => Throw w
  end.

(** [page[i] = v] through a reference [page]; [page] is what
    [newPages[pageIndex]] gave, undefined ([None]) when [pageIndex] is out
    of range, and assigning a property of undefined is a TypeError. *)
Definition array_set (page : option nat) (i : nat) (v : JsVal) : M unit := fun w =>
  match page with
  | None => Throw w
  | Some ref =>
    match store w !! ref with
    | Some arr =>
      Ok tt {| store := <[ref := array_put arr i v]> (store w); pages := pages w;
               focus := focus w; alerts := alerts w; console := console w |}
    | None => Throw w
    end
  end.

(** *** Browser effects *)

Definition alert (msg : string) : M unit := fun w =>
  Ok tt {| store := store w; pages := pages w; focus := focus w;
           alerts := alerts w ++ [msg]; console := console w |}.

Definition console_error (msg : string) : M unit := fun w =>
  Ok tt {| store := store w; pages := pages w; focus := focus w;
           alerts := alerts w; console := console w ++ [msg] |}.

(** [document.querySelector(`#cell-${p}-${c}`)]: the component renders one
    input with that id for each cell [c] of each page [p] of the state
    ([pages.map] over [page.map]); the element is named by its pair. *)
Definition querySelector_cell (p c : nat) : M (option (nat * nat)) := fun w =>
  match pages w !! p with
  | None => Ok None w
  | Some ref =>
    match store w !! ref with
    | Some arr => Ok (if decide (c < length arr) then Some (p, c) else None) w
    | None => Throw w
    end
  end.

(** [nextInput.focus()] *)
Definition focus_input (el : nat * nat) : M unit := fun w =>
  Ok tt {| store := store w; pages := pages w; focus := Some el;
           alerts := alerts w; console := console w |}.

(** [xs.map(f)] with an effectful callback, left to right. *)
Fixpoint mapM {A B : Type} (f : A -> M B) (xs : list A) : M (list B) :=
  match xs with
  | [] => mret []
  | x :: xs' => y ← f x; ys ← mapM f xs'; mret (y :: ys)
  end.

(** ** The PDF element tree *)

Inductive Tag : Type := TDocument | TPage | TView | TText.

(** The entries of [styles]. *)
Inductive Style : Type :=
  | style_page | style_header | style_pageNumber
  | style_gridContainer | style_row | style_cell.

(** A React element with its key, style and children; a child is also a
    literal text, a number or a cell value.  The paper size of a [Page]
    and the values of the styles are presentation and left out. *)
Inductive Node : Type :=
  | Elem (tag : Tag) (key : option nat) (style : option Style) (children : list Node)
  | Str (s : string)
  | Num (n : nat)
  | Val (v : JsVal).

Definition headerLabel : string := "જય સ્વામિનારાયણ".

(** The [View] of one grid cell. *)
Definition cellView (page : nat) (rowIndex colIndex : nat) : M Node :=
  let cellIndex := rowIndex * 5 + colIndex in
  v ← array_get page cellIndex;
  mret (Elem TView (Some colIndex) (Some style_cell)
          [Elem TText None None [Val (js_or v (JStr " "))]]).

(** The [View] of one row: [Array.from({ length: 5 }).map(...)]. *)
Definition rowView (page : nat) (rowIndex : nat) : M Node :=
  cells ← mapM (cellView page rowIndex) (seq 0 5);
  mret (Elem TView (Some rowIndex) (Some style_row) cells).

(** One [Page]: header, page number, and the grid of
    [Array.from({ length: 20 })] rows. *)
Definition pageView (pageIndex : nat) (page : nat) : M Node :=
  rows ← mapM (rowView page) (seq 0 20);
  mret (Elem TPage (Some pageIndex) (Some style_page)
          [ Elem TText None (Some style_header) [Str headerLabel];
            Elem TText None (Some style_pageNumber) [Str "Page "; Num (pageIndex + 1)];
            Elem TView None (Some style_gridContainer) rows ]).

(** [MantraPDF({ pages })] *)
Definition MantraPDF (pages : list nat) : M Node :=
  printed ← mapM (fun ip => pageView ip.1 ip.2) (imap pair pages);
  mret (Elem TDocument None None printed).

(** ** The handlers of [MantraLekhan] *)

(** [handleChange]: [[...pages]] copies the outer array only, so the page
    array written to is the one of the current state. *)
Definition handleChange (pageIndex cellIndex : nat) (value : string) : M unit :=
  ps ← getPages;
  let newPages := ps in
  array_set (newPages !! pageIndex) cellIndex (JStr value);;
  setPages newPages.

(** The two constants [handleKeyDown] computes: [nextIndex] and
    [nextPageIndex] ([Math.floor] of a quotient of naturals). *)
Definition nextIndex (cellIndex : nat) : nat :=
  (cellIndex + 1) mod cellsPerPage.

Definition nextPageIndex (pageIndex cellIndex : nat) : nat :=
  pageIndex + (cellIndex + 1) / cellsPerPage.

(** [handleKeyDown]; [key] is [e.key].  [e.preventDefault()] touches
    nothing the world records. *)
Definition handleKeyDown (key : string) (pageIndex cellIndex : nat) : M unit :=
  if String.eqb key "Enter" then
    nextInput ← querySelector_cell (nextPageIndex pageIndex cellIndex)
                                   (nextIndex cellIndex);
    match nextInput with
    | Some el => focus_input el
    | None => mret tt
    end
  else mret tt.

(** [addPage] as one render made it.  [closure] is the [pages] that
    render captured, which the guard tests; the updater given to
    [setPages] appends to [prevPages], the pages the state holds when the
    call is made. *)
Definition addPageIn (closure : list nat) : M unit :=
  if decide (maxPages <= length closure) then
    alert "Maximum 5 pages allowed."
  else
    newPage ← alloc blankPage;
    prevPages ← getPages;
    setPages (prevPages ++ [newPage]).

(** [addPage] of the current render: its closure holds the pages of the
    state. *)
Definition addPage : M unit :=
  ps ← getPages;
  addPageIn ps.

(** [arr.splice(index, 1)] for an index that is a natural number. *)
Definition splice1 {A : Type} (index : nat) (arr : list A) : list A :=
  take index arr ++ drop (S index) arr.

(** [removePage]; [confirmDelete] is the answer of [window.confirm]. *)
Definition removePage (confirmDelete : bool) (index : nat) : M unit :=
  if negb confirmDelete then mret tt
  else
    ps ← getPages;
    let newPages := splice1 index ps in
    if decide (length newPages <> 0) then setPages newPages
    else fresh ← alloc blankPage; setPages [fresh].

(** [resetAll]; [confirmReset] is the answer of [window.confirm]. *)
Definition resetAll (confirmReset : bool) : M unit :=
  if negb confirmReset then mret tt
  else fresh ← alloc blankPage; setPages [fresh].

(** ** Restoring the saved pages *)

(** [Array.isArray(p) && p.length === cellsPerPage] *)
Definition isPage (p : JsVal) : bool :=
  match p with
  | JArr cells => bool_decide (length cells = cellsPerPage)
  | _ => false
  end.

(** The guard of [initializePages]. *)
Definition acceptSaved (parsed : JsVal) : bool :=
  match parsed with
  | JArr ps => bool_decide (0 < length ps) && forallb isPage ps
  | _ => false
  end.

(** The elements of an array value. *)
Definition elements (v : JsVal) : list JsVal :=
  match v with JArr elems => elems | _ => [] end.

(** The storage of the browser as the component meets it: closed to the
    page, so that reading it throws (a SecurityError), or open, its
    [mantraPages] slot absent or holding a text. *)
Inductive Storage : Type :=
  | Denied
  | Slot (saved : option string).

(** [localStorage.getItem('mantraPages')] *)
Definition localStorage_getItem (storage : Storage) : M (option string) :=
  match storage with
  | Denied => throw
  | Slot saved => mret saved
  end.

Section Restore.

(** [JSON.parse]: the parsed value, or [None] for a SyntaxError. *)
Variable JSON_parse : string -> option JsVal.

(** [saved ? JSON.parse(saved) : null]; [saved] is [None] when
    [localStorage.getItem] gave null. *)
Definition parseSaved (saved : option string) : option JsVal :=
  match saved with
  | Some s => if truthy (JStr s) then JSON_parse s else Some JNull
  | None => Some JNull
  end.

(** [initializePages] from its [try] on, [saved] being what line 85
    read: an accepted value is returned as it is, its page arrays being
    the objects [JSON.parse] built. *)
Definition initializePagesWith (saved : option string) : M (list nat) :=
  match parseSaved saved with
  | Some parsed =>
    if acceptSaved parsed then mapM alloc (elements <$> elements parsed)
    else fresh ← alloc blankPage; mret [fresh]
  | None =>
    console_error "Error parsing saved data:";;
    fresh ← alloc blankPage; mret [fresh]
  end.

(** [useState(initializePages)] at mount, where the slot was read and
    held [saved]. *)
Definition mount (saved : option string) : M unit :=
  initial ← initializePagesWith saved;
  setPages initial.

(** [initializePages], whole: the read of the slot comes first, outside
    the [try], so its exception is not caught. *)
Definition initializePages (storage : Storage) : M (list nat) :=
  saved ← localStorage_getItem storage;
  initializePagesWith saved.

(** [useState(initializePages)] at mount, on a given storage. *)
Definition mountFrom (storage : Storage) : M unit :=
  initial ← initializePages storage;
  setPages initial.

End Restore.

(** ** Export *)

Section Download.

(** The bytes [pdf(...).toBlob()] resolves to, [None] when it rejects. *)
Variable Blob : Type.
Variable pdf_toBlob : Node -> option Blob.

(** [downloadPDF]: the blob offered for download under the name
    [mantralekhan.pdf]; a rejection leaves the handler by an exception. *)
Definition downloadPDF : M Blob :=
  ps ← getPages;
  tree ← MantraPDF ps;
  match pdf_toBlob tree with
  | Some blob => mret blob
  | None => throw
  end.

End Download.

(** ** The Document a world holds *)

(** The arrays a list of references stands for. *)
Definition deref (st : list (list JsVal)) (refs : list nat) : list (list JsVal) :=
  (fun ref => default [] (st !! ref)) <$> refs.

(** The pages of the state, dereferenced. *)
Definition document (w : World) : list (list JsVal) :=
  deref (store w) (pages w).

(** Cell [c] of page [p]. *)
Definition cell (w : World) (p c : nat) : option JsVal :=
  page ← document w !! p; page !! c.

(** Every reference of the state is held by the store and no two pages
    are the same array. *)
Definition wellFormed (w : World) : Prop :=
  Forall (fun ref => ref < length (store w)) (pages w) /\ NoDup (pages w).

(** The shape invariant of a Document. *)
Definition shaped (d : list (list JsVal)) : Prop :=
  1 <= length d <= maxPages /\ Forall (fun p => length p = cellsPerPage) d.

(** A computation that leaves the world as it found it, whether it ends
    normally or throws. *)
Definition readonly {A : Type} (m : M A) : Prop :=
  forall w, world_of (m w) = w.

(** ** The component as a transition system *)

(** The events the rendered page can raise. *)
Inductive Event : Type :=
  | Change (pageIndex cellIndex : nat) (value : string)
  | KeyDown (key : string) (pageIndex cellIndex : nat)
  | AddPage
  | RemovePage (confirmDelete : bool) (index : nat)
  | ResetAll (confirmReset : bool).

(** An event comes from an element the page shows: a cell event from the
    input of an existing cell, a removal from the button of an existing
    page. *)
Definition enabled (w : World) (e : Event) : Prop :=
  match e with
  | Change p c _ | KeyDown _ p c => is_Some (cell w p c)
  | RemovePage _ index => index < length (pages w)
  | AddPage | ResetAll _ => True
  end.

Definition handle (e : Event) : M unit :=
  match e with
  | Change p c value => handleChange p c value
  | KeyDown key p c => handleKeyDown key p c
  | AddPage => addPage
  | RemovePage confirmDelete index => removePage confirmDelete index
  | ResetAll confirmReset => resetAll confirmReset
  end.

(** The worlds the component can be in: mounted on some saved value, then
    driven by events. *)
Inductive reachable (JSON_parse : string -> option JsVal) : World -> Prop :=
  | reach_mount (saved : option string) (w : World) :
      mount JSON_parse saved emptyWorld = Ok tt w -> reachable JSON_parse w
  | reach_step (w w' : World) (e : Event) :
      reachable JSON_parse w -> enabled w e -> handle e w = Ok tt w' ->
      reachable JSON_parse w'.

(** What holds of the state throughout: distinct page arrays, at least one
    page, 100 cells a page. *)
Definition invariant (w : World) : Prop :=
  wellFormed w /\ document w <> [] /\
  Forall (fun p => length p = cellsPerPage) (document w).

(** ** Reading a rendered tree *)

Definition children (n : Node) : list Node :=
  match n with Elem _ _ _ ch => ch | _ => [] end.

(** The print pages of a rendered document. *)
Definition printPages (doc : Node) : list Node :=
  match doc with Elem TDocument _ _ ch => ch | _ => [] end.

(** The header text of a print page. *)
Definition headerOf (page : Node) : option string :=
  match page with
  | Elem TPage _ _ (Elem TText _ (Some style_header) [Str s] :: _) => Some s
  | _ => None
  end.

(** The page-number annotation of a print page: its label and number. *)
Definition pageNumberOf (page : Node) : option (string * nat) :=
  match page with
  | Elem TPage _ _ [_; Elem TText _ (Some style_pageNumber) [Str label; Num n]; _] =>
    Some (label, n)
  | _ => None
  end.

(** What one cell slot displays. *)
Definition slotOf (cellNode : Node) : option JsVal :=
  match cellNode with
  | Elem TView _ (Some style_cell) [Elem TText _ _ [Val v]] => Some v
  | _ => None
  end.

(** The grid of a print page: its rows, each the slots it displays. *)
Definition gridOf (page : Node) : list (list JsVal) :=
  match page with
  | Elem TPage _ _ [_; _; Elem TView _ (Some style_gridContainer) rows] =>
    (fun row => omap slotOf (children row)) <$> rows
  | _ => []
  end.

(** A cell that holds a string, as every cell of a Document does. *)
Definition isText (v : JsVal) : Prop :=
  match v with JStr _ => True | _ => False end.

(** What the contract says a slot shows: the text of the cell, or a
    single space when the cell is the empty string. *)
Definition shown (v : JsVal) : JsVal :=
  match v with JStr EmptyString => JStr " " | _ => v end.

(** The trees the layout builds over a page array [arr]. *)
Definition cellNode (arr : list JsVal) (rowIndex colIndex : nat) : Node :=
  Elem TView (Some colIndex) (Some style_cell)
    [Elem TText None None [Val (js_or (array_at arr (rowIndex * 5 + colIndex)) (JStr " "))]].

Definition rowNode (arr : list JsVal) (rowIndex : nat) : Node :=
  Elem TView (Some rowIndex) (Some style_row) (cellNode arr rowIndex <$> seq 0 5).

Definition pageNode (pageIndex : nat) (arr : list JsVal) : Node :=
  Elem TPage (Some pageIndex) (Some style_page)
    [ Elem TText None (Some style_header) [Str headerLabel];
      Elem TText None (Some style_pageNumber) [Str "Page "; Num (pageIndex + 1)];
      Elem TView None (Some style_gridContainer) (rowNode arr <$> seq 0 20) ].

(** ** Sample inputs *)

(** A world whose state holds the pages [d], each its own array. *)
Definition worldOf (d : list (list JsVal)) : World :=
  {| store := d; pages := seq 0 (length d); focus := None;
     alerts := []; console := [] |}.

(** A world of [n] blank pages. *)
Definition blankWorld (n : nat) : World := worldOf (replicate n blankPage).

(** A page of strings. *)
Definition textPage (cells : list string) : list JsVal := JStr <$> cells.

(** The JSON text of pages whose cells need no escaping, as
    [JSON.stringify(pages)] writes it to the [mantraPages] slot. *)
Definition quoteMark : string := String (Ascii.ascii_of_nat 34) EmptyString.

Definition pagesText (d : list (list string)) : string :=
  let cellText s := quoteMark +:+ s +:+ quoteMark in
  let pageText cells := "[" +:+ String.concat "," (cellText <$> cells) +:+ "]" in
  "[" +:+ String.concat "," (pageText <$> d) +:+ "]".

(** [JSON.parse] cut down to one text: the text of [d] parses to [d]
    and every other text counts as a SyntaxError. *)
Definition parseOnly (d : list (list string)) (s : string) : option JsVal :=
  if String.eqb s (pagesText d) then Some (JArr (JArr <$> (textPage <$> d)))
  else None.

(** One page with a mantra in its first cell. *)
Definition omPage : list string := "ॐ" :: replicate 99 EmptyString.

(** Six blank pages. *)
Definition sixPages : list (list string) := replicate 6 (replicate 100 EmptyString).

(** A blank page followed by a page filled with "A". *)
Definition twoPages : list (list JsVal) :=
  [blankPage; textPage (replicate 100 "A")].

(** ** The page the component renders *)

(** [page.map(...)] sees the elements of the array as they are. *)
Definition array_read (ref : nat) : M (list JsVal) := fun w =>
  match store w !! ref with
  | Some arr => Ok arr w
  | None => Throw w
  end.

(** An index in a template literal: its decimal digits. *)
Definition decimal (n : nat) : string :=
  DecimalString.NilEmpty.string_of_uint (Nat.to_uint n).

(** [`cell-${pageIndex}-${cellIndex}`] *)
Definition cellId (pageIndex cellIndex : nat) : string :=
  "cell-" +:+ decimal pageIndex +:+ "-" +:+ decimal cellIndex.

(** One [input]: its id, its value, and the cell its [onChange] and
    [onKeyDown] pass to the handlers. *)
Record Input : Type := mkInput {
  input_id : string;
  input_value : JsVal;
  input_cell : nat * nat
}.

(** The card of one page: the number in its heading, the index its Remove
    button passes to [removePage], and its inputs. *)
Record Card : Type := mkCard {
  card_number : nat;
  card_remove : nat;
  card_inputs : list Input
}.

(** A slot a write past the end skipped.  No cell of the component holds
    the value undefined otherwise: [JSON.parse] yields none and the value
    of an input is a string. *)
Definition isHole (v : JsVal) : bool :=
  match v with JUndefined => true | _ => false end.

(** The input [page.map] makes of the slot at [cellIndex]; it does not
    call its function on a skipped slot, which gets no input. *)
Definition inputOf (pageIndex : nat) (slot : nat * JsVal) : option Input :=
  if isHole slot.2 then None
  else Some (mkInput (cellId pageIndex slot.1) slot.2 (pageIndex, slot.1)).

Definition renderCard (pageIndex page : nat) : M Card :=
  cells ← array_read page;
  mret {| card_number := pageIndex + 1;
          card_remove := pageIndex;
          card_inputs := omap (inputOf pageIndex) (imap pair cells) |}.

(** The cards of the returned JSX: [pages.map((page, pageIndex) => ...)]. *)
Definition render : M (list Card) :=
  ps ← getPages;
  mapM (fun ip => renderCard ip.1 ip.2) (imap pair ps).

(** [document.querySelector('#' + id)] on the rendered page: the first
    element, in document order, with that id; only the inputs carry one. *)
Definition querySelector (cards : list Card) (id : string) : option Input :=
  find (fun inp => String.eqb (input_id inp) id) (concat (card_inputs <$> cards)).

(** ** Saving the pages *)

(** The value of the state [pages], as [JSON.stringify] walks it. *)
Definition pagesValue (w : World) : JsVal := JArr (JArr <$> document w).

Section Persist.

(** [JSON.stringify] *)
Variable JSON_stringify : JsVal -> string.

(** The effect on [pages]: the text [localStorage.setItem] stores under
    [mantraPages]. *)
Definition persistEffect (w : World) : string := JSON_stringify (pagesValue w).

End Persist.

(** ** Helpers for the statements *)

(** [n] runs of a handler in a row. *)
Fixpoint times (n : nat) (m : M unit) : M unit :=
  match n with
  | 0 => mret tt
  | S n' => m;; times n' m
  end.

(** The value a computation ended with, if it did not throw. *)
Definition outcome {A : Type} (r : Res A) : option A :=
  match r with Ok a _ => Some a | Throw _ => None end.

(** The position of a cell when the cells of all pages are counted in
    reading order. *)
Definition linear (p c : nat) : nat := p * cellsPerPage + c.

(** The string of a cell of a sample text page. *)
Definition textOf (v : JsVal) : string :=
  match v with JStr s => s | _ => EmptyString end.

(** [JSON.stringify] cut down to pages of strings that need no escaping. *)
Definition stringifyTexts (v : JsVal) : string :=
  pagesText ((fun p => textOf <$> elements p) <$> elements v).

(** The card the page shows for the page array [cells] at [pageIndex]. *)
Definition cardOf (pageIndex : nat) (cells : list JsVal) : Card :=
  {| card_number := pageIndex + 1;
     card_remove := pageIndex;
     card_inputs := omap (inputOf pageIndex) (imap pair cells) |}.

(** A page with a hole: what [handleChange 0 101 "A"] leaves of a blank
    page. *)
Definition holedPage : list JsVal := blankPage ++ [JUndefined; JStr "A"].

(** All the inputs of the page, in document order. *)
Definition inputsOf (cards : list Card) : list Input :=
  concat (card_inputs <$> cards).

(** * Properties *)

(** ** Running computations *)

Lemma bind_Ok {A B : Type} (m : M A) (f : A -> M B) (w w' : World) (a : A) :
  m w = Ok a w' -> (m ≫= f) w = f a w'.
Proof. intros H. unfold mbind, M_bind. by rewrite H. Qed.

Lemma bind_Throw {A B : Type} (m : M A) (f : A -> M B) (w w' : World) :
  m w = Throw w' -> (m ≫= f) w = Throw w'.
Proof. intros H. unfold mbind, M_bind. by rewrite H. Qed.

Lemma world_eta (w : World) :
  {| store := store w; pages := pages w; focus := focus w;
     alerts := alerts w; console := console w |} = w.
Proof. by destruct w. Qed.

(** Unfolds the monad and the primitive operations. *)
Ltac run :=
  unfold mbind, M_bind, mret, M_ret, throw, getPages, setPages, alloc,
    alert, console_error, focus_input; simpl.

(** ** Arrays *)

Lemma array_put_in_range (arr : list JsVal) (i : nat) (v : JsVal) :
  i < length arr -> array_put arr i v = <[i:=v]> arr.
Proof. intros H. unfold array_put. by rewrite decide_True. Qed.

Lemma array_put_length (arr : list JsVal) (i : nat) (v : JsVal) :
  i < length arr -> length (array_put arr i v) = length arr.
Proof. intros H. rewrite array_put_in_range by done. apply length_insert. Qed.

Lemma array_put_lookup (arr : list JsVal) (i : nat) (v : JsVal) :
  array_put arr i v !! i = Some v.
Proof.
  unfold array_put. case_decide as Hi.
  - by apply list_lookup_insert_eq.
  - rewrite lookup_app_r by lia.
    rewrite lookup_app_r by (rewrite length_replicate; lia).
    rewrite length_replicate.
    by replace (i - length arr - (i - length arr)) with 0 by lia.
Qed.

Lemma array_put_bound (arr : list JsVal) (i : nat) (v : JsVal) :
  i < length (array_put arr i v).
Proof. eapply lookup_lt_Some, array_put_lookup. Qed.

Lemma array_put_twice (arr : list JsVal) (i : nat) (v : JsVal) :
  array_put (array_put arr i v) i v = array_put arr i v.
Proof.
  rewrite (array_put_in_range (array_put arr i v)) by apply array_put_bound.
  apply list_insert_id, array_put_lookup.
Qed.

Lemma splice1_length {A : Type} (i : nat) (l : list A) :
  i < length l -> length (splice1 i l) = length l - 1.
Proof.
  intros H. unfold splice1.
  rewrite length_app, length_take, length_drop. lia.
Qed.

(** ** References and the store *)

Lemma deref_length (st : list (list JsVal)) (refs : list nat) :
  length (deref st refs) = length refs.
Proof. unfold deref. apply length_fmap. Qed.

Lemma deref_lookup (st : list (list JsVal)) (refs : list nat) (p ref : nat) :
  refs !! p = Some ref -> deref st refs !! p = Some (default [] (st !! ref)).
Proof. intros H. unfold deref. by rewrite list_lookup_fmap, H. Qed.

Lemma deref_app (st : list (list JsVal)) (r1 r2 : list nat) :
  deref st (r1 ++ r2) = deref st r1 ++ deref st r2.
Proof. unfold deref. apply fmap_app. Qed.

(** Allocation leaves the arrays of the held references alone. *)
Lemma deref_alloc (st ext : list (list JsVal)) (refs : list nat) :
  Forall (fun ref => ref < length st) refs ->
  deref (st ++ ext) refs = deref st refs.
Proof.
  intros H. unfold deref. apply Forall_fmap_ext_1.
  eapply Forall_impl; [exact H|].
  intros ref Href. simpl. by rewrite lookup_app_l.
Qed.

Lemma deref_fresh (st : list (list JsVal)) (arr : list JsVal) :
  deref (st ++ [arr]) [length st] = [arr].
Proof.
  unfold deref. simpl. rewrite lookup_app_r by lia.
  by replace (length st - length st) with 0 by lia.
Qed.

(** Writing through one reference changes the page at its position and,
    the references being distinct, no other. *)
Lemma deref_insert (st : list (list JsVal)) (refs : list nat) (p ref : nat)
    (arr : list JsVal) :
  NoDup refs -> refs !! p = Some ref -> ref < length st ->
  deref (<[ref:=arr]> st) refs = <[p:=arr]> (deref st refs).
Proof.
  intros Hnd Hp Hlt. apply list_eq. intros q.
  destruct (decide (q = p)) as [->|Hne].
  - rewrite list_lookup_insert_eq by (rewrite deref_length; by eapply lookup_lt_Some).
    erewrite deref_lookup by done. by rewrite list_lookup_insert_eq.
  - rewrite list_lookup_insert_ne by done.
    destruct (refs !! q) as [r|] eqn:Hq.
    + rewrite !(deref_lookup _ _ _ _ Hq).
      rewrite list_lookup_insert_ne; [done|].
      intros ->. apply Hne. by eapply NoDup_lookup.
    + unfold deref. by rewrite !list_lookup_fmap, Hq.
Qed.

Lemma splice1_deref (st : list (list JsVal)) (refs : list nat) (i : nat) :
  deref st (splice1 i refs) = splice1 i (deref st refs).
Proof. unfold splice1, deref. by rewrite fmap_app, fmap_take, fmap_drop. Qed.

Lemma splice1_delete {A : Type} (i : nat) (l : list A) :
  splice1 i l = delete i l.
Proof. unfold splice1. by rewrite delete_take_drop. Qed.

Lemma splice1_NoDup (i : nat) (refs : list nat) :
  NoDup refs -> NoDup (splice1 i refs).
Proof.
  intros H. rewrite splice1_delete.
  eapply sublist_NoDup; [exact H | apply sublist_delete].
Qed.

Lemma splice1_Forall {A : Type} (P : A -> Prop) (i : nat) (l : list A) :
  Forall P l -> Forall P (splice1 i l).
Proof. intros H. rewrite splice1_delete. by apply Forall_delete. Qed.

Lemma blankPage_length : length blankPage = cellsPerPage.
Proof. unfold blankPage. apply length_replicate. Qed.

(** ** Well-formed worlds *)

Lemma wellFormed_fresh (st : list (list JsVal)) (refs : list nat) :
  Forall (fun ref => ref < length st) refs -> NoDup refs ->
  NoDup (refs ++ [length st]).
Proof.
  intros Hb Hnd. apply NoDup_app. split; [done|]. split; [|apply NoDup_singleton].
  intros x Hx Hin. apply list_elem_of_singleton in Hin. subst x.
  rewrite Forall_forall in Hb. specialize (Hb _ Hx). lia.
Qed.

Lemma Forall_lt_weaken (refs : list nat) (n m : nat) :
  n <= m -> Forall (fun ref => ref < n) refs -> Forall (fun ref => ref < m) refs.
Proof.
  intros Hnm H. eapply Forall_impl; [exact H|].
  intros ref Href. simpl in *. lia.
Qed.

(** ** addPage *)

(** C3. A Document that already holds the maximum of 5 pages is left as
    it is by [addPage], which signals the rejection by an alert; a
    Document with fewer than 5 pages gets exactly one blank page of 100
    empty cells appended, its pages staying as they were. *)
Theorem addPage_spec (w : World) :
  wellFormed w ->
  exists w', addPage w = Ok tt w' /\
    (length (document w) = maxPages ->
       document w' = document w /\ pages w' = pages w /\ store w' = store w /\
       alerts w' = alerts w ++ ["Maximum 5 pages allowed."]) /\
    (length (document w) < maxPages ->
       document w' = document w ++ [replicate 100 (JStr EmptyString)] /\
       alerts w' = alerts w).
Proof.
  intros [Hb Hnd]. unfold addPage, addPageIn, document. run.
  rewrite deref_length. case_decide as Hfull.
  - eexists. split; [reflexivity|]. simpl. split; [done|]. lia.
  - eexists. split; [reflexivity|]. simpl. split; [lia|].
    intros _. split; [|done].
    rewrite deref_app, deref_alloc, deref_fresh by done. done.
Qed.

(** ** removePage *)

Lemma removePage_declined (w : World) (index : nat) :
  removePage false index w = Ok tt w.
Proof. reflexivity. Qed.

Lemma removePage_run (w : World) (index : nat) :
  wellFormed w ->
  exists w', removePage true index w = Ok tt w' /\ wellFormed w' /\
    document w' =
      (if decide (length (splice1 index (document w)) <> 0)
       then splice1 index (document w) else [blankPage]).
Proof.
  intros [Hb Hnd]. unfold removePage, document. run.
  rewrite <- splice1_deref, deref_length.
  case_decide as Hlen.
  - eexists. split; [reflexivity|]. simpl. split; [|done].
    split; [by apply splice1_Forall | by apply splice1_NoDup].
  - eexists. split; [reflexivity|]. simpl. split; [|apply deref_fresh].
    split; [|apply NoDup_singleton].
    constructor; [|constructor]. simpl. rewrite length_app. simpl. lia.
Qed.

(** C4. For an in-range [pageIndex], a confirmed [removePage] returns the
    Document without the page at [pageIndex], the other pages unchanged
    and in order; when the Document had exactly one page the result is one
    blank page instead, so the result is never empty. *)
Theorem removePage_spec (w : World) (pageIndex : nat) :
  wellFormed w -> pageIndex < length (document w) ->
  exists w', removePage true pageIndex w = Ok tt w' /\
    (1 < length (document w) ->
       document w' = take pageIndex (document w) ++ drop (S pageIndex) (document w)) /\
    (length (document w) = 1 ->
       document w' = [replicate 100 (JStr EmptyString)]) /\
    document w' <> [].
Proof.
  intros Hwf Hidx.
  destruct (removePage_run w pageIndex Hwf) as (w' & Hrun & _ & Hdoc).
  exists w'. split; [done|].
  pose proof (splice1_length pageIndex (document w) Hidx) as Hlen.
  rewrite Hdoc. case_decide as Hne.
  - split; [done|]. split; [lia|]. intros Heq. by rewrite Heq in Hne.
  - split; [lia|]. done.
Qed.

(** ** handleChange *)

Lemma handleChange_run (w : World) (p c ref : nat) (arr : list JsVal) (value : string) :
  pages w !! p = Some ref -> store w !! ref = Some arr ->
  handleChange p c value w =
    Ok tt {| store := <[ref := array_put arr c (JStr value)]> (store w);
             pages := pages w; focus := focus w;
             alerts := alerts w; console := console w |}.
Proof.
  intros Hp Href. unfold handleChange, array_set. run.
  by rewrite Hp, Href.
Qed.

Lemma handleChange_document (w : World) (p c : nat) (page : list JsVal) (value : string) :
  wellFormed w -> document w !! p = Some page ->
  exists w', handleChange p c value w = Ok tt w' /\ wellFormed w' /\
    document w' = <[p := array_put page c (JStr value)]> (document w).
Proof.
  intros [Hb Hnd] Hpage. unfold document, deref in Hpage.
  rewrite list_lookup_fmap in Hpage.
  destruct (pages w !! p) as [ref|] eqn:Hp; [|done].
  simpl in Hpage. injection Hpage as Hpage.
  pose proof (Forall_lookup_1 _ _ _ _ Hb Hp) as Hlt. simpl in Hlt.
  destruct (lookup_lt_is_Some_2 _ _ Hlt) as [arr Harr].
  rewrite Harr in Hpage. simpl in Hpage. subst page.
  eexists. split; [by eapply handleChange_run|].
  unfold wellFormed, document. simpl. rewrite length_insert.
  split; [done|]. by apply deref_insert.
Qed.

(** C6. For in-range [pageIndex] and [cellIndex], [handleChange] returns a
    Document in which that cell holds the value and every other cell of
    every page is as it was. *)
Theorem handleChange_frame (w : World) (pageIndex cellIndex : nat) (value : string) :
  wellFormed w -> is_Some (cell w pageIndex cellIndex) ->
  exists w', handleChange pageIndex cellIndex value w = Ok tt w' /\
    cell w' pageIndex cellIndex = Some (JStr value) /\
    forall p c, (p, c) <> (pageIndex, cellIndex) -> cell w' p c = cell w p c.
Proof.
  intros Hwf [old Hold]. unfold cell in Hold.
  destruct (document w !! pageIndex) as [page|] eqn:Hpage; [|done].
  simpl in Hold. pose proof (lookup_lt_Some _ _ _ Hold) as Hc.
  pose proof (lookup_lt_Some _ _ _ Hpage) as Hp.
  destruct (handleChange_document w pageIndex cellIndex page value Hwf Hpage)
    as (w' & Hrun & _ & Hdoc).
  exists w'. split; [done|]. unfold cell. rewrite Hdoc.
  rewrite array_put_in_range by done. split.
  - rewrite list_lookup_insert_eq by done. simpl.
    by rewrite list_lookup_insert_eq.
  - intros p c Hne. destruct (decide (p = pageIndex)) as [->|Hp'].
    + rewrite list_lookup_insert_eq by done. rewrite Hpage. simpl.
      apply list_lookup_insert_ne. congruence.
    + by rewrite list_lookup_insert_ne.
Qed.

(** C7. [handleChange] is idempotent: running it twice with the same
    arguments ends as running it once does. *)
Theorem handleChange_idempotent (w : World) (pageIndex cellIndex : nat) (value : string) :
  (handleChange pageIndex cellIndex value;;
   handleChange pageIndex cellIndex value) w
  = handleChange pageIndex cellIndex value w.
Proof.
  destruct (pages w !! pageIndex) as [ref|] eqn:Hp.
  - destruct (store w !! ref) as [arr|] eqn:Href.
    + erewrite bind_Ok by (by eapply handleChange_run).
      erewrite (handleChange_run w) by done.
      erewrite handleChange_run; simpl; [|done|].
      2:{ apply list_lookup_insert_eq. by eapply lookup_lt_Some. }
      by rewrite list_insert_insert_eq, array_put_twice.
    + assert (handleChange pageIndex cellIndex value w = Throw w) as Hthrow.
      { unfold handleChange, array_set. run. by rewrite Hp, Href. }
      by erewrite bind_Throw.
  - assert (handleChange pageIndex cellIndex value w = Throw w) as Hthrow.
    { unfold handleChange, array_set. run. by rewrite Hp. }
    by erewrite bind_Throw.
Qed.

(** ** The shape invariant *)

Lemma addPage_run (w : World) :
  wellFormed w ->
  exists w', addPage w = Ok tt w' /\ wellFormed w' /\
    document w' =
      (if decide (maxPages <= length (document w)) then document w
       else document w ++ [blankPage]).
Proof.
  intros [Hb Hnd]. unfold addPage, addPageIn, document. run.
  rewrite deref_length. case_decide as Hfull.
  - eexists. split; [reflexivity|]. by simpl.
  - eexists. split; [reflexivity|]. unfold wellFormed. simpl. split.
    + split; [|by apply wellFormed_fresh].
      apply Forall_app. split.
      * eapply Forall_lt_weaken; [|exact Hb]. rewrite length_app. lia.
      * constructor; [|constructor]. simpl. rewrite length_app. simpl. lia.
    + by rewrite deref_app, deref_alloc, deref_fresh.
Qed.

Lemma resetAll_run (w : World) (confirmReset : bool) :
  wellFormed w ->
  exists w', resetAll confirmReset w = Ok tt w' /\ wellFormed w' /\
    document w' = (if confirmReset then [blankPage] else document w).
Proof.
  intros Hwf. destruct confirmReset; unfold resetAll, document; run.
  - eexists. split; [reflexivity|]. simpl. split; [|apply deref_fresh].
    split; [|apply NoDup_singleton].
    constructor; [|constructor]. simpl. rewrite length_app. simpl. lia.
  - by eexists.
Qed.

Lemma shaped_blank : shaped [blankPage].
Proof.
  split; [simpl; unfold maxPages; lia|].
  constructor; [apply blankPage_length|constructor].
Qed.

(** C5. Every mutation ([handleChange] at an existing cell, [addPage],
    [removePage] at an existing page, [resetAll]) keeps the shape of the
    Document: from between 1 and 5 pages of exactly 100 cells each it
    gives again between 1 and 5 pages of exactly 100 cells each. *)
Theorem mutations_preserve_shape (w : World) :
  wellFormed w -> shaped (document w) ->
  (forall pageIndex cellIndex value,
     is_Some (cell w pageIndex cellIndex) ->
     exists w', handleChange pageIndex cellIndex value w = Ok tt w' /\
       wellFormed w' /\ shaped (document w')) /\
  (exists w', addPage w = Ok tt w' /\ wellFormed w' /\ shaped (document w')) /\
  (forall confirmDelete pageIndex,
     pageIndex < length (document w) ->
     exists w', removePage confirmDelete pageIndex w = Ok tt w' /\
       wellFormed w' /\ shaped (document w')) /\
  (forall confirmReset,
     exists w', resetAll confirmReset w = Ok tt w' /\
       wellFormed w' /\ shaped (document w')).
Proof.
  intros Hwf [[Hlo Hhi] Hcells]. repeat split.
  - intros p c value [old Hold]. unfold cell in Hold.
    destruct (document w !! p) as [page|] eqn:Hpage; [|done].
    simpl in Hold. pose proof (lookup_lt_Some _ _ _ Hold) as Hc.
    destruct (handleChange_document w p c page value Hwf Hpage)
      as (w' & Hrun & Hwf' & Hdoc).
    exists w'. split; [done|]. split; [done|]. rewrite Hdoc.
    split; [by rewrite length_insert|].
    apply Forall_insert; [done|]. rewrite array_put_length by done.
    by eapply (Forall_lookup_1 _ _ _ _ Hcells).
  - destruct (addPage_run w Hwf) as (w' & Hrun & Hwf' & Hdoc).
    exists w'. split; [done|]. split; [done|]. rewrite Hdoc.
    case_decide as Hfull; [done|]. split.
    + rewrite length_app. simpl. lia.
    + apply Forall_app. split; [done|].
      constructor; [apply blankPage_length|constructor].
  - intros [|] i Hi.
    + destruct (removePage_run w i Hwf) as (w' & Hrun & Hwf' & Hdoc).
      exists w'. split; [done|]. split; [done|]. rewrite Hdoc.
      pose proof (splice1_length i (document w) Hi) as Hlen.
      case_decide as Hne; [|apply shaped_blank].
      split; [lia|]. by apply splice1_Forall.
    + exists w. by rewrite removePage_declined.
  - intros c. destruct (resetAll_run w c Hwf) as (w' & Hrun & Hwf' & Hdoc).
    exists w'. split; [done|]. split; [done|]. rewrite Hdoc.
    destruct c; [apply shaped_blank|done].
Qed.

(** ** handleKeyDown *)

Lemma nextPageIndex_wrap (pageIndex cellIndex : nat) :
  cellIndex < cellsPerPage ->
  nextPageIndex pageIndex cellIndex =
    if decide (cellIndex = 99) then pageIndex + 1 else pageIndex.
Proof.
  unfold nextPageIndex, cellsPerPage. intros Hc. case_decide as H99.
  - subst cellIndex. by change ((99 + 1) / 100) with 1.
  - rewrite Nat.div_small by lia. lia.
Qed.

(** C8. For [0 <= cellIndex < 100] the Enter key computes the next
    reference as [(cellIndex + 1) mod 100] on page [pageIndex + 1] exactly
    when [cellIndex = 99] and on [pageIndex] otherwise; the handler
    creates no page, moves the focus to that cell when it exists, and
    does nothing at all when the computed page does not exist. *)
Theorem handleKeyDown_spec (w : World) (pageIndex cellIndex : nat) :
  wellFormed w -> cellIndex < 100 ->
  nextIndex cellIndex = (cellIndex + 1) mod 100 /\
  (nextPageIndex pageIndex cellIndex = pageIndex + 1 <-> cellIndex = 99) /\
  (cellIndex <> 99 -> nextPageIndex pageIndex cellIndex = pageIndex) /\
  exists w', handleKeyDown "Enter" pageIndex cellIndex w = Ok tt w' /\
    pages w' = pages w /\ store w' = store w /\
    (is_Some (cell w (nextPageIndex pageIndex cellIndex) (nextIndex cellIndex)) ->
       focus w' = Some (nextPageIndex pageIndex cellIndex, nextIndex cellIndex)) /\
    (length (document w) <= nextPageIndex pageIndex cellIndex -> w' = w).
Proof.
  intros [Hb Hnd] Hc. split; [done|].
  pose proof (nextPageIndex_wrap pageIndex cellIndex Hc) as Hwrap.
  split; [|split].
  - rewrite Hwrap. case_decide; split; intros; try done; lia.
  - intros H99. rewrite Hwrap. by rewrite decide_False.
  - clear Hwrap.
    set (p' := nextPageIndex pageIndex cellIndex).
    set (c' := nextIndex cellIndex).
    unfold handleKeyDown, querySelector_cell, cell, document. run.
    fold p' c'. rewrite deref_length.
    destruct (pages w !! p') as [ref|] eqn:Hp.
    + pose proof (Forall_lookup_1 _ _ _ _ Hb Hp) as Hlt. simpl in Hlt.
      destruct (lookup_lt_is_Some_2 _ _ Hlt) as [arr Harr].
      rewrite (deref_lookup _ _ _ _ Hp), Harr. simpl.
      pose proof (lookup_lt_Some _ _ _ Hp) as Hlen.
      destruct (decide (c' < length arr)) as [Hin|Hin].
      * eexists. split; [reflexivity|]. simpl.
        split; [done|]. split; [done|]. split; [done|]. lia.
      * eexists. split; [reflexivity|].
        split; [done|]. split; [done|]. split; [|lia].
        intros [x Hx]. apply lookup_lt_Some in Hx. lia.
    + eexists. split; [reflexivity|].
      split; [done|]. split; [done|]. split; [|done].
      unfold deref. rewrite list_lookup_fmap, Hp. simpl. by intros [x Hx].
Qed.

(** ** Rendering reads only *)

Lemma readonly_ret {A : Type} (a : A) : readonly (mret a : M A).
Proof. by intros w. Qed.

Lemma readonly_bind {A B : Type} (m : M A) (f : A -> M B) :
  readonly m -> (forall a, readonly (f a)) -> readonly (m ≫= f).
Proof.
  intros Hm Hf w. specialize (Hm w). unfold mbind, M_bind.
  destruct (m w) as [a w1|w1]; simpl in Hm; subst w1; [apply Hf|done].
Qed.

Lemma readonly_mapM {A B : Type} (f : A -> M B) (xs : list A) :
  (forall x, readonly (f x)) -> readonly (mapM f xs).
Proof.
  intros Hf. induction xs as [|x xs IH]; simpl.
  - apply readonly_ret.
  - apply readonly_bind; [apply Hf|]. intros y.
    apply readonly_bind; [apply IH|]. intros ys. apply readonly_ret.
Qed.

Lemma readonly_array_get (ref i : nat) : readonly (array_get ref i).
Proof. intros w. unfold array_get. by destruct (store w !! ref). Qed.

Lemma readonly_MantraPDF (ps : list nat) : readonly (MantraPDF ps).
Proof.
  unfold MantraPDF. apply readonly_bind; [|intros; apply readonly_ret].
  apply readonly_mapM. intros [i ref]. unfold pageView.
  apply readonly_bind; [|intros; apply readonly_ret].
  apply readonly_mapM. intros r. unfold rowView.
  apply readonly_bind; [|intros; apply readonly_ret].
  apply readonly_mapM. intros c. unfold cellView.
  apply readonly_bind; [apply readonly_array_get|intros; apply readonly_ret].
Qed.

(** C9. Rendering never mutates the Document: after [MantraPDF], and
    after the export action [downloadPDF] whether the PDF library
    resolves or rejects, the pages and cells are exactly as before. *)
Theorem rendering_preserves_document (Blob : Type) (pdf_toBlob : Node -> option Blob)
    (w : World) :
  world_of (MantraPDF (pages w) w) = w /\
  world_of (downloadPDF Blob pdf_toBlob w) = w /\
  document (world_of (downloadPDF Blob pdf_toBlob w)) = document w.
Proof.
  assert (readonly (downloadPDF Blob pdf_toBlob)) as Hro.
  { unfold downloadPDF. apply readonly_bind; [by intros ?|]. intros ps.
    apply readonly_bind; [apply readonly_MantraPDF|]. intros tree.
    destruct (pdf_toBlob tree); by intros ?. }
  split; [apply readonly_MantraPDF|]. split; [apply Hro|]. by rewrite Hro.
Qed.

(** ** initializePages *)

Lemma mapM_alloc (arrs : list (list JsVal)) (w : World) :
  mapM alloc arrs w =
    Ok (seq (length (store w)) (length arrs))
       {| store := store w ++ arrs; pages := pages w; focus := focus w;
          alerts := alerts w; console := console w |}.
Proof.
  revert w. induction arrs as [|arr arrs IH]; intros w; simpl.
  - run. by rewrite app_nil_r, world_eta.
  - run. rewrite IH. simpl. rewrite length_app, <- app_assoc. simpl.
    by replace (length (store w) + 1) with (S (length (store w))) by lia.
Qed.

Lemma deref_seq (st arrs : list (list JsVal)) :
  deref (st ++ arrs) (seq (length st) (length arrs)) = arrs.
Proof.
  apply list_eq. intros i. unfold deref. rewrite list_lookup_fmap.
  destruct (decide (i < length arrs)) as [Hi|Hi].
  - rewrite lookup_seq_lt by done. simpl.
    rewrite lookup_app_r by lia.
    replace (length st + i - length st) with i by lia.
    destruct (lookup_lt_is_Some_2 arrs i Hi) as [arr Harr]. by rewrite Harr.
  - rewrite lookup_seq_ge by lia. simpl. symmetry. apply lookup_ge_None. lia.
Qed.

Lemma seq_NoDup_bounded (start len : nat) :
  Forall (fun ref => ref < start + len) (seq start len) /\ NoDup (seq start len).
Proof.
  split; [|apply NoDup_seq].
  apply Forall_forall. intros x Hx. apply elem_of_seq in Hx. lia.
Qed.

Lemma isPage_spec (p : JsVal) :
  isPage p = true <-> exists cells, p = JArr cells /\ length cells = 100.
Proof.
  split.
  - destruct p; simpl; try done. intros H. apply bool_decide_eq_true in H. eauto.
  - intros (cells & -> & Hlen). simpl. by apply bool_decide_eq_true.
Qed.

(** The guard accepts exactly the non-empty arrays of arrays of 100
    elements. *)
Lemma acceptSaved_spec (v : JsVal) :
  acceptSaved v = true <->
  exists d, v = JArr (JArr <$> d) /\ d <> [] /\ Forall (fun p => length p = 100) d.
Proof.
  split.
  - destruct v as [| | | | |ps|]; simpl; try done.
    intros H. apply andb_true_iff in H as [Hlen Hall].
    apply bool_decide_eq_true in Hlen.
    exists (elements <$> ps). split; [|split].
    + f_equal. rewrite <- list_fmap_compose.
      rewrite <- (list_fmap_id ps) at 1. apply Forall_fmap_ext_1.
      rewrite forallb_forall in Hall. apply Forall_forall. intros p Hp.
      apply list_elem_of_In, Hall, isPage_spec in Hp as (cells & -> & _). done.
    + intros Hnil. apply (f_equal length) in Hnil.
      rewrite length_fmap in Hnil. simpl in Hnil. lia.
    + apply Forall_fmap. rewrite forallb_forall in Hall.
      apply Forall_forall. intros p Hp.
      apply list_elem_of_In, Hall, isPage_spec in Hp as (cells & -> & Hc). done.
  - intros (d & -> & Hne & Hall). simpl. apply andb_true_iff. split.
    + apply bool_decide_eq_true. rewrite length_fmap. destruct d; [done|simpl; lia].
    + rewrite forallb_forall. intros p Hp.
      apply list_elem_of_In, list_elem_of_fmap in Hp as (cells & -> & Hin).
      apply isPage_spec. exists cells. split; [done|].
      rewrite Forall_forall in Hall. by apply Hall.
Qed.

Lemma elements_pages (d : list (list JsVal)) :
  elements <$> elements (JArr (JArr <$> d)) = d.
Proof.
  simpl. rewrite <- list_fmap_compose. rewrite <- (list_fmap_id d) at 2.
  by apply list_fmap_ext.
Qed.

Lemma pages_value_inj (d d' : list (list JsVal)) :
  JArr <$> d = JArr <$> d' -> d = d'.
Proof.
  intros H. rewrite <- (elements_pages d), <- (elements_pages d').
  simpl. by rewrite H.
Qed.

Section RestoreProofs.

Variable JSON_parse : string -> option JsVal.

(** The empty text is not JSON: [JSON.parse('')] throws. *)
Hypothesis JSON_parse_empty : JSON_parse EmptyString = None.

Lemma mount_accepted (saved : option string) (d : list (list JsVal)) (w0 : World) :
  parseSaved JSON_parse saved = Some (JArr (JArr <$> d)) ->
  d <> [] -> Forall (fun p => length p = 100) d ->
  mount JSON_parse saved w0 =
    Ok tt {| store := store w0 ++ d; pages := seq (length (store w0)) (length d);
             focus := focus w0; alerts := alerts w0; console := console w0 |}.
Proof.
  intros Hparse Hne Hall. unfold mount, initializePagesWith. rewrite Hparse.
  assert (acceptSaved (JArr (JArr <$> d)) = true) as ->
    by (apply acceptSaved_spec; eauto).
  rewrite elements_pages.
  erewrite bind_Ok by apply mapM_alloc. done.
Qed.

Lemma mount_rejected (saved : option string) (w0 : World) :
  (forall v, parseSaved JSON_parse saved = Some v -> acceptSaved v = false) ->
  exists w, mount JSON_parse saved w0 = Ok tt w /\
    store w = store w0 ++ [blankPage] /\ pages w = [length (store w0)].
Proof.
  intros Hrej. unfold mount, initializePagesWith.
  destruct (parseSaved JSON_parse saved) as [v|].
  - rewrite (Hrej v eq_refl). run. by eexists.
  - run. by eexists.
Qed.

Lemma parseSaved_text (s : string) (v : JsVal) :
  JSON_parse s = Some v -> parseSaved JSON_parse (Some s) = Some v.
Proof.
  intros H. unfold parseSaved. destruct s as [|a s]; [congruence|done].
Qed.

End RestoreProofs.

(** What [mount] gives for each saved value the read of the slot can
    return. *)
Lemma mount_spec (JSON_parse : string -> option JsVal)
    (saved : option string) :
  JSON_parse EmptyString = None ->
  exists w, mount JSON_parse saved emptyWorld = Ok tt w /\ wellFormed w /\
    (forall s d,
       saved = Some s -> JSON_parse s = Some (JArr (JArr <$> d)) ->
       d <> [] -> Forall (fun p => length p = 100) d ->
       document w = d) /\
    (saved = None \/
     (exists s, saved = Some s /\ JSON_parse s = None) \/
     (exists s v, saved = Some s /\ JSON_parse s = Some v /\
        ~ exists d, v = JArr (JArr <$> d) /\ d <> [] /\
                    Forall (fun p => length p = 100) d) ->
     document w = [replicate 100 (JStr EmptyString)]).
Proof.
  intros Hempty.
  destruct (parseSaved JSON_parse saved) as [v|] eqn:Hparse.
  - destruct (acceptSaved v) eqn:Hacc.
    + (* accepted *)
      pose proof Hacc as Hshape. apply acceptSaved_spec in Hshape as (d & -> & Hne & Hall).
      eexists. split; [by apply mount_accepted|]. unfold wellFormed. simpl.
      split; [apply (seq_NoDup_bounded 0)|]. split.
      * intros s d' -> Hs _ _. apply parseSaved_text in Hs; [|done].
        rewrite Hs in Hparse. injection Hparse as Hparse.
        unfold document. simpl.
        pose proof (deref_seq [] d) as Hd. simpl in Hd. rewrite Hd.
        by apply pages_value_inj.
      * intros [->|[(s & -> & Hs)|(s & v & -> & Hs & Hno)]].
        -- simpl in Hparse. done.
        -- unfold parseSaved in Hparse. destruct s; simpl in Hparse; [done|congruence].
        -- apply parseSaved_text in Hs; [|done]. rewrite Hs in Hparse.
           injection Hparse as ->. exfalso. apply Hno. eauto.
    + (* parsed, rejected by the guard *)
      destruct (mount_rejected JSON_parse saved emptyWorld) as (w & Hrun & Hst & Hps).
      { intros v' Hv'. congruence. }
      exists w. split; [done|]. unfold wellFormed, document. rewrite Hst, Hps. simpl.
      split; [split; [repeat constructor|apply NoDup_singleton]|]. split; [|done].
      intros s d -> Hs Hne Hall. apply parseSaved_text in Hs; [|done].
      rewrite Hs in Hparse. injection Hparse as <-.
      assert (acceptSaved (JArr (JArr <$> d)) = true) by (apply acceptSaved_spec; eauto).
      congruence.
  - (* SyntaxError *)
    destruct (mount_rejected JSON_parse saved emptyWorld) as (w & Hrun & Hst & Hps).
    { intros v' Hv'. congruence. }
    exists w. split; [done|]. unfold wellFormed, document. rewrite Hst, Hps. simpl.
    split; [split; [repeat constructor|apply NoDup_singleton]|]. split; [|done].
    intros s d -> Hs _ _. apply parseSaved_text in Hs; [|done]. congruence.
Qed.

Lemma mountFrom_Slot (JSON_parse : string -> option JsVal) (saved : option string)
    (w : World) :
  mountFrom JSON_parse (Slot saved) w = mount JSON_parse saved w.
Proof. reflexivity. Qed.

(** C1. For every value the read of the persisted slot returns,
    [initializePages] ends normally: a value that is a non-empty sequence
    of pages of exactly 100 cells each is returned unchanged, and when the
    value is absent, not parseable, or fails that shape, the result is
    exactly one blank page of 100 empty-string cells.  The read itself is
    outside the [try]: when it throws, the exception is not caught and
    leaves [initializePages]. *)
Theorem initializePages_spec (JSON_parse : string -> option JsVal) (storage : Storage) :
  JSON_parse EmptyString = None ->
  match storage with
  | Denied =>
    initializePages JSON_parse Denied emptyWorld = Throw emptyWorld /\
    mountFrom JSON_parse Denied emptyWorld = Throw emptyWorld
  | Slot saved =>
    exists w, mountFrom JSON_parse (Slot saved) emptyWorld = Ok tt w /\ wellFormed w /\
      (forall s d,
         saved = Some s -> JSON_parse s = Some (JArr (JArr <$> d)) ->
         d <> [] -> Forall (fun p => length p = 100) d ->
         document w = d) /\
      (saved = None \/
       (exists s, saved = Some s /\ JSON_parse s = None) \/
       (exists s v, saved = Some s /\ JSON_parse s = Some v /\
          ~ exists d, v = JArr (JArr <$> d) /\ d <> [] /\
                      Forall (fun p => length p = 100) d) ->
       document w = [replicate 100 (JStr EmptyString)])
  end.
Proof.
  intros Hempty. destruct storage as [|saved]; [by split|].
  rewrite mountFrom_Slot. by apply mount_spec.
Qed.

(** C10. [initializePages] does not enforce the maximum of 5 pages: a
    persisted sequence of more than 5 arrays of exactly 100 elements each
    is accepted as it is, and the Document returned has more than 5
    pages. *)
Theorem initializePages_unbounded (JSON_parse : string -> option JsVal)
    (s : string) (d : list (list JsVal)) :
  JSON_parse EmptyString = None ->
  JSON_parse s = Some (JArr (JArr <$> d)) ->
  5 < length d -> Forall (fun p => length p = 100) d ->
  exists w, mount JSON_parse (Some s) emptyWorld = Ok tt w /\
    document w = d /\ 5 < length (document w) /\ ~ shaped (document w).
Proof.
  intros Hempty Hs Hlen Hall.
  assert (d <> []) as Hne by (intros ->; simpl in Hlen; lia).
  eexists. split.
  { apply mount_accepted; [|done|done]. by apply parseSaved_text. }
  unfold document. simpl.
  pose proof (deref_seq [] d) as Hd. simpl in Hd. rewrite Hd.
  split; [done|]. split; [done|].
  intros [[_ Hmax] _]. unfold maxPages in Hmax. lia.
Qed.

(** ** MantraPDF *)

Lemma mapM_pure {A B : Type} (f : A -> M B) (g : A -> B) (xs : list A) (w : World) :
  Forall (fun x => f x w = Ok (g x) w) xs ->
  mapM f xs w = Ok (g <$> xs) w.
Proof.
  induction 1 as [|x xs Hx _ IH]; simpl; [done|].
  erewrite bind_Ok by exact Hx. erewrite bind_Ok by exact IH. done.
Qed.

Lemma pageView_run (w : World) (pageIndex ref : nat) (arr : list JsVal) :
  store w !! ref = Some arr ->
  pageView pageIndex ref w = Ok (pageNode pageIndex arr) w.
Proof.
  intros Href. unfold pageView.
  erewrite bind_Ok; [reflexivity|].
  apply (mapM_pure _ (rowNode arr)). apply Forall_forall. intros r _.
  unfold rowView. erewrite bind_Ok; [reflexivity|].
  apply (mapM_pure _ (cellNode arr r)). apply Forall_forall. intros c _.
  unfold cellView, array_get. run. by rewrite Href.
Qed.

Lemma MantraPDF_run (w : World) :
  wellFormed w ->
  MantraPDF (pages w) w =
    Ok (Elem TDocument None None (imap pageNode (document w))) w.
Proof.
  intros [Hb _]. unfold MantraPDF.
  erewrite bind_Ok.
  2:{ apply (mapM_pure _ (fun ip => pageNode ip.1 (default [] (store w !! ip.2)))).
      apply Forall_lookup. intros i [j ref] Hi.
      rewrite list_lookup_imap in Hi.
      destruct (pages w !! i) as [r|] eqn:Hr; [|done].
      simpl in Hi. injection Hi as <- <-.
      pose proof (Forall_lookup_1 _ _ _ _ Hb Hr) as Hlt. simpl in Hlt.
      destruct (lookup_lt_is_Some_2 _ _ Hlt) as [arr Harr].
      simpl. rewrite Harr. by apply pageView_run. }
  run. do 2 f_equal. unfold document, deref.
  rewrite fmap_imap, imap_fmap. by apply imap_ext.
Qed.

(** The 20 rows of 5 slots, read row by row, are the 100 first cells. *)
Lemma gridOf_pageNode (pageIndex : nat) (arr : list JsVal) :
  (length <$> gridOf (pageNode pageIndex arr)) = replicate 20 5 /\
  concat (gridOf (pageNode pageIndex arr)) =
    ((fun i => js_or (array_at arr i) (JStr " ")) <$> seq 0 100).
Proof. split; reflexivity. Qed.

Lemma array_at_seq {B : Type} (g : JsVal -> B) (arr : list JsVal) :
  ((fun i => g (array_at arr i)) <$> seq 0 (length arr)) = (g <$> arr).
Proof.
  apply list_eq. intros i. rewrite !list_lookup_fmap.
  destruct (arr !! i) as [x|] eqn:Hx.
  - rewrite lookup_seq_lt by (by eapply lookup_lt_Some). simpl.
    unfold array_at. by rewrite Hx.
  - rewrite lookup_seq_ge; [done|]. by apply lookup_ge_None.
Qed.

Lemma js_or_text (v : JsVal) : isText v -> js_or v (JStr " ") = shown v.
Proof. destruct v as [| | | |s| |]; try done. by destruct s. Qed.

(** C2. For every Document the renderer emits exactly one print page per
    page, in order; print page [i] carries the fixed header label, the
    page number [i + 1], and a grid of 20 rows of 5 slots, 100 in all,
    where slot [k] in row-major order shows the text of cell [k], or a
    single space when that cell is the empty string. *)
Theorem MantraPDF_spec (w : World) :
  wellFormed w ->
  Forall (fun page => length page = 100 /\ Forall isText page) (document w) ->
  exists tree, MantraPDF (pages w) w = Ok tree w /\
    length (printPages tree) = length (document w) /\
    forall i page, document w !! i = Some page ->
      exists printed, printPages tree !! i = Some printed /\
        headerOf printed = Some headerLabel /\
        pageNumberOf printed = Some ("Page ", i + 1) /\
        (length <$> gridOf printed) = replicate 20 5 /\
        length (concat (gridOf printed)) = 100 /\
        concat (gridOf printed) = (shown <$> page).
Proof.
  intros Hwf Hdoc. eexists. split; [by apply MantraPDF_run|]. simpl.
  split; [apply length_imap|].
  intros i page Hpage. exists (pageNode i page).
  split; [by rewrite list_lookup_imap, Hpage|].
  split; [done|]. split; [done|].
  destruct (gridOf_pageNode i page) as [Hrows Hslots].
  split; [done|]. rewrite Hslots.
  split; [by rewrite length_fmap, length_seq|].
  destruct (Forall_lookup_1 _ _ _ _ Hdoc Hpage) as [Hlen Htext].
  rewrite <- Hlen, (array_at_seq (fun v => js_or v (JStr " "))).
  apply Forall_fmap_ext_1. eapply Forall_impl; [exact Htext|].
  intros v Hv. by apply js_or_text.
Qed.

(** ** Sample runs *)

Lemma worldOf_wellFormed (d : list (list JsVal)) : wellFormed (worldOf d).
Proof. unfold wellFormed, worldOf. simpl. apply (seq_NoDup_bounded 0). Qed.

Lemma worldOf_document (d : list (list JsVal)) : document (worldOf d) = d.
Proof. unfold document, worldOf. simpl. apply (deref_seq []). Qed.

Lemma textPage_isText (cells : list string) : Forall isText (textPage cells).
Proof. unfold textPage. apply Forall_fmap. by apply Forall_forall. Qed.

Lemma blankPage_text : blankPage = textPage (replicate 100 EmptyString).
Proof. reflexivity. Qed.

(** Closes a decidable statement about concrete data by evaluation. *)
Ltac by_eval :=
  unfold wellFormed, shaped; apply (bool_decide_unpack _); vm_compute; exact I.

(** The first end-to-end scenario: one blank page, then "ॐ" in cell 0. *)
Example scenario_edit :
  exists w, (mount (parseOnly []) None;; handleChange 0 0 "ॐ") emptyWorld = Ok tt w /\
    document w = [textPage omPage].
Proof. eexists. split; [vm_compute; reflexivity|]. reflexivity. Qed.

(** The second scenario: five pages, and a sixth [addPage] is refused. *)
Example scenario_capacity :
  exists w, (addPage;; addPage) (blankWorld 4) = Ok tt w /\
    length (document w) = 5 /\ alerts w = ["Maximum 5 pages allowed."].
Proof. eexists. split; [vm_compute; reflexivity|]. split; reflexivity. Qed.

(** The third scenario: two pages, the second filled with "A". *)
Example scenario_render :
  exists tree, MantraPDF (pages (worldOf twoPages)) (worldOf twoPages)
               = Ok tree (worldOf twoPages) /\
    length (printPages tree) = 2 /\
    ((fun printed => concat (gridOf printed)) <$> printPages tree)
    = [replicate 100 (JStr " "); replicate 100 (JStr "A")].
Proof. eexists. split; [vm_compute; reflexivity|]. split; reflexivity. Qed.

(** The write of [handleChange] goes to the array itself: two positions
    of the state that held the same array would both show it.  The
    handlers never build such a state. *)
Example handleChange_shared_array :
  let w := {| store := [blankPage]; pages := [0; 0]; focus := None;
              alerts := []; console := [] |} in
  exists w', handleChange 0 0 "A" w = Ok tt w' /\
    cell w' 1 0 = Some (JStr "A") /\ cell w 1 0 = Some (JStr EmptyString).
Proof. eexists. split; [vm_compute; reflexivity|]. split; reflexivity. Qed.

(** Out of range, [handleChange] throws on a missing page and grows the
    page past its last cell. *)
Example handleChange_no_page :
  handleChange 3 0 "A" (blankWorld 1) = Throw (blankWorld 1).
Proof. reflexivity. Qed.

Example handleChange_past_end :
  exists w', handleChange 0 101 "A" (blankWorld 1) = Ok tt w' /\
    document w' = [blankPage ++ [JUndefined; JStr "A"]].
Proof. eexists. split; [vm_compute; reflexivity|]. reflexivity. Qed.

(** A cell that holds a number zero, which [initializePages] lets in,
    prints as a space as well. *)
Example render_falsy_number :
  js_or (JNum (S754_zero false)) (JStr " ") = JStr " ".
Proof. reflexivity. Qed.

(** ** Witnesses *)

(** With the storage closed to the page, [initializePages] does fail
    outward. *)
Lemma initializePages_fails_outward :
  mountFrom (parseOnly []) Denied emptyWorld = Throw emptyWorld /\
  ~ (forall storage : Storage,
       exists w, mountFrom (parseOnly []) storage emptyWorld = Ok tt w).
Proof.
  split; [reflexivity|]. intros Hall. destruct (Hall Denied) as [w Hw]. discriminate Hw.
Qed.

Lemma initializePages_spec_witness :
  parseOnly [omPage] EmptyString = None /\
  (exists w, mountFrom (parseOnly [omPage]) (Slot (Some (pagesText [omPage]))) emptyWorld
             = Ok tt w /\
     document w = [textPage omPage]) /\
  (exists w, mountFrom (parseOnly [omPage]) (Slot None) emptyWorld = Ok tt w /\
     document w = [replicate 100 (JStr EmptyString)]) /\
  mountFrom (parseOnly [omPage]) Denied emptyWorld = Throw emptyWorld.
Proof.
  split; [reflexivity|]. split; [|split].
  - destruct (initializePages_spec (parseOnly [omPage])
                (Slot (Some (pagesText [omPage]))) eq_refl)
      as (w & Hrun & _ & Hacc & _).
    exists w. split; [exact Hrun|].
    apply (Hacc (pagesText [omPage]) [textPage omPage]).
    + reflexivity.
    + vm_compute. reflexivity.
    + discriminate.
    + repeat constructor.
  - destruct (initializePages_spec (parseOnly [omPage]) (Slot None) eq_refl)
      as (w & Hrun & _ & _ & Hrej).
    exists w. split; [exact Hrun|]. apply Hrej. by left.
  - apply (initializePages_spec (parseOnly [omPage]) Denied eq_refl).
Defined.

Lemma MantraPDF_spec_witness :
  wellFormed (worldOf twoPages) /\
  Forall (fun page => length page = 100 /\ Forall isText page) (document (worldOf twoPages)) /\
  exists tree, MantraPDF (pages (worldOf twoPages)) (worldOf twoPages)
               = Ok tree (worldOf twoPages) /\
    length (printPages tree) = 2 /\
    exists printed, printPages tree !! 1 = Some printed /\
      pageNumberOf printed = Some ("Page ", 2) /\
      concat (gridOf printed) = replicate 100 (JStr "A").
Proof.
  assert (Forall (fun page => length page = 100 /\ Forall isText page)
            (document (worldOf twoPages))) as Htext.
  { rewrite worldOf_document. unfold twoPages. rewrite blankPage_text.
    repeat constructor; apply textPage_isText. }
  split; [by_eval|]. split; [exact Htext|].
  destruct (MantraPDF_spec (worldOf twoPages) (worldOf_wellFormed _) Htext)
    as (tree & Hrun & Hlen & Hpages).
  exists tree. split; [exact Hrun|]. split; [exact Hlen|].
  destruct (Hpages 1 (textPage (replicate 100 "A")) eq_refl)
    as (printed & Hp & _ & Hnum & _ & _ & Hslots).
  exists printed. split; [exact Hp|]. split; [exact Hnum|]. exact Hslots.
Defined.

Lemma addPage_spec_witness :
  wellFormed (blankWorld 5) /\ wellFormed (blankWorld 2) /\
  (exists w', addPage (blankWorld 5) = Ok tt w' /\
     document w' = replicate 5 blankPage /\
     alerts w' = ["Maximum 5 pages allowed."]) /\
  (exists w', addPage (blankWorld 2) = Ok tt w' /\
     document w' = replicate 3 blankPage /\ alerts w' = []).
Proof.
  split; [by_eval|]. split; [by_eval|]. split.
  - destruct (addPage_spec (blankWorld 5) (worldOf_wellFormed _)) as (w' & Hrun & Hfull & _).
    exists w'. split; [exact Hrun|].
    destruct (Hfull eq_refl) as (Hdoc & _ & _ & Hal).
    split; [exact Hdoc | exact Hal].
  - destruct (addPage_spec (blankWorld 2) (worldOf_wellFormed _)) as (w' & Hrun & _ & Hroom).
    exists w'. split; [exact Hrun|]. apply Hroom. vm_compute. lia.
Defined.

Lemma removePage_spec_witness :
  wellFormed (worldOf twoPages) /\ 0 < length (document (worldOf twoPages)) /\
  (exists w', removePage true 0 (worldOf twoPages) = Ok tt w' /\
     document w' = [textPage (replicate 100 "A")]) /\
  (exists w', removePage true 0 (blankWorld 1) = Ok tt w' /\
     document w' = [blankPage]).
Proof.
  split; [by_eval|]. split; [vm_compute; lia|]. split.
  - destruct (removePage_spec (worldOf twoPages) 0 (worldOf_wellFormed _)) as (w' & Hrun & Hmany & _).
    { vm_compute. lia. }
    exists w'. split; [exact Hrun|]. apply Hmany. vm_compute. lia.
  - destruct (removePage_spec (blankWorld 1) 0 (worldOf_wellFormed _)) as (w' & Hrun & _ & Hone & _).
    { vm_compute. lia. }
    exists w'. split; [exact Hrun|]. by apply Hone.
Defined.

Lemma mutations_preserve_shape_witness :
  wellFormed (blankWorld 5) /\ shaped (document (blankWorld 5)) /\
  (exists w', handleChange 4 99 "A" (blankWorld 5) = Ok tt w' /\ shaped (document w')) /\
  (exists w', addPage (blankWorld 5) = Ok tt w' /\ shaped (document w')) /\
  (exists w', removePage true 0 (blankWorld 5) = Ok tt w' /\ shaped (document w')) /\
  (exists w', resetAll true (blankWorld 5) = Ok tt w' /\ shaped (document w')).
Proof.
  assert (shaped (document (blankWorld 5))) as Hshape by by_eval.
  split; [by_eval|]. split; [exact Hshape|].
  destruct (mutations_preserve_shape (blankWorld 5) (worldOf_wellFormed _) Hshape)
    as (Hedit & Hadd & Hremove & Hreset).
  split; [|split; [|split]].
  - destruct (Hedit 4 99 "A") as (w' & Hrun & _ & Hs); [vm_compute; eauto|].
    exists w'. split; [exact Hrun | exact Hs].
  - destruct Hadd as (w' & Hrun & _ & Hs).
    exists w'. split; [exact Hrun | exact Hs].
  - destruct (Hremove true 0) as (w' & Hrun & _ & Hs); [vm_compute; lia|].
    exists w'. split; [exact Hrun | exact Hs].
  - destruct (Hreset true) as (w' & Hrun & _ & Hs).
    exists w'. split; [exact Hrun | exact Hs].
Defined.

Lemma handleChange_frame_witness :
  wellFormed (worldOf twoPages) /\ is_Some (cell (worldOf twoPages) 1 3) /\
  exists w', handleChange 1 3 "ॐ" (worldOf twoPages) = Ok tt w' /\
    cell w' 1 3 = Some (JStr "ॐ") /\
    cell w' 1 4 = Some (JStr "A") /\
    cell w' 0 3 = Some (JStr EmptyString).
Proof.
  assert (is_Some (cell (worldOf twoPages) 1 3)) as Hin by (vm_compute; eauto).
  split; [by_eval|]. split; [exact Hin|].
  destruct (handleChange_frame (worldOf twoPages) 1 3 "ॐ" (worldOf_wellFormed _) Hin)
    as (w' & Hrun & Hcell & Hframe).
  exists w'. split; [exact Hrun|]. split; [exact Hcell|]. split.
  - rewrite Hframe by discriminate. reflexivity.
  - rewrite Hframe by discriminate. reflexivity.
Defined.

Lemma handleKeyDown_spec_witness :
  wellFormed (blankWorld 2) /\ 99 < 100 /\
  (exists w', handleKeyDown "Enter" 0 99 (blankWorld 2) = Ok tt w' /\
     focus w' = Some (1, 0) /\ pages w' = pages (blankWorld 2)) /\
  (exists w', handleKeyDown "Enter" 1 99 (blankWorld 2) = Ok tt w' /\
     w' = blankWorld 2).
Proof.
  split; [by_eval|]. split; [lia|]. split.
  - destruct (handleKeyDown_spec (blankWorld 2) 0 99 (worldOf_wellFormed _))
      as (_ & _ & _ & w' & Hrun & Hpages & _ & Hfocus & _); [lia|].
    exists w'. split; [exact Hrun|]. split; [|exact Hpages].
    apply Hfocus. vm_compute. eauto.
  - destruct (handleKeyDown_spec (blankWorld 2) 1 99 (worldOf_wellFormed _))
      as (_ & _ & _ & w' & Hrun & _ & _ & _ & Hnone); [lia|].
    exists w'. split; [exact Hrun|]. apply Hnone. vm_compute. lia.
Defined.

Lemma initializePages_unbounded_witness :
  parseOnly sixPages EmptyString = None /\
  parseOnly sixPages (pagesText sixPages) = Some (JArr (JArr <$> (textPage <$> sixPages))) /\
  5 < length (textPage <$> sixPages) /\
  Forall (fun p => length p = 100) (textPage <$> sixPages) /\
  exists w, mount (parseOnly sixPages) (Some (pagesText sixPages)) emptyWorld = Ok tt w /\
    document w = replicate 6 blankPage /\ length (document w) = 6.
Proof.
  assert (parseOnly sixPages (pagesText sixPages)
          = Some (JArr (JArr <$> (textPage <$> sixPages)))) as Hparse
    by (vm_compute; reflexivity).
  assert (5 < length (textPage <$> sixPages)) as Hlen by (vm_compute; lia).
  assert (Forall (fun p => length p = 100) (textPage <$> sixPages)) as Hall
    by (apply (bool_decide_unpack _); vm_compute; exact I).
  split; [reflexivity|]. split; [exact Hparse|]. split; [exact Hlen|]. split; [exact Hall|].
  destruct (initializePages_unbounded (parseOnly sixPages) (pagesText sixPages)
              (textPage <$> sixPages) eq_refl Hparse Hlen Hall)
    as (w & Hrun & Hdoc & _).
  exists w. split; [exact Hrun|]. split; [exact Hdoc|]. rewrite Hdoc. reflexivity.
Defined.

(** ** The states the component reaches *)

Lemma mount_invariant (JSON_parse : string -> option JsVal) (saved : option string) :
  exists w, mount JSON_parse saved emptyWorld = Ok tt w /\ invariant w.
Proof.
  destruct (parseSaved JSON_parse saved) as [v|] eqn:Hparse;
    [destruct (acceptSaved v) eqn:Hacc|].
  - apply acceptSaved_spec in Hacc as (d & -> & Hne & Hall).
    eexists. split; [by apply mount_accepted|].
    pose proof (deref_seq [] d) as Hd. simpl in Hd.
    unfold invariant, wellFormed, document. simpl. rewrite Hd.
    split; [apply (seq_NoDup_bounded 0)|done].
  - destruct (mount_rejected JSON_parse saved emptyWorld) as (w & Hrun & Hst & Hps);
      [intros; congruence|].
    exists w. split; [done|]. unfold invariant, wellFormed, document.
    rewrite Hst, Hps. simpl.
    split; [split; [repeat constructor|apply NoDup_singleton]|].
    split; [done|]. by repeat constructor.
  - destruct (mount_rejected JSON_parse saved emptyWorld) as (w & Hrun & Hst & Hps);
      [intros; congruence|].
    exists w. split; [done|]. unfold invariant, wellFormed, document.
    rewrite Hst, Hps. simpl.
    split; [split; [repeat constructor|apply NoDup_singleton]|].
    split; [done|]. by repeat constructor.
Qed.

Lemma handleKeyDown_run (w : World) (key : string) (p c : nat) :
  wellFormed w ->
  exists w', handleKeyDown key p c w = Ok tt w' /\
    pages w' = pages w /\ store w' = store w.
Proof.
  intros [Hb _]. unfold handleKeyDown, querySelector_cell.
  destruct (String.eqb key "Enter"); [|by eexists]. run.
  destruct (pages w !! nextPageIndex p c) as [ref|] eqn:Hp; [|by eexists].
  pose proof (Forall_lookup_1 _ _ _ _ Hb Hp) as Hlt. simpl in Hlt.
  destruct (lookup_lt_is_Some_2 _ _ Hlt) as [arr Harr]. rewrite Harr.
  destruct (decide (nextIndex c < length arr)); by eexists.
Qed.

(** An enabled event ends normally and keeps the invariant. *)
Lemma handle_invariant (w : World) (e : Event) :
  invariant w -> enabled w e ->
  exists w', handle e w = Ok tt w' /\ invariant w'.
Proof.
  intros (Hwf & Hne & Hcells) Hen. destruct e as [p c v|key p c| |[|] i|c]; simpl in *.
  - destruct Hen as [old Hold]. unfold cell in Hold.
    destruct (document w !! p) as [page|] eqn:Hpage; [|done].
    simpl in Hold. pose proof (lookup_lt_Some _ _ _ Hold) as Hc.
    destruct (handleChange_document w p c page v Hwf Hpage) as (w' & Hrun & Hwf' & Hdoc).
    exists w'. split; [done|]. split; [done|]. rewrite Hdoc. split.
    + intros Hnil. apply (f_equal length) in Hnil.
      rewrite length_insert in Hnil. by destruct (document w).
    + apply Forall_insert; [done|]. rewrite array_put_length by done.
      by eapply (Forall_lookup_1 _ _ _ _ Hcells).
  - destruct (handleKeyDown_run w key p c Hwf) as (w' & Hrun & Hps & Hst).
    exists w'. split; [done|]. unfold invariant, wellFormed, document in *.
    by rewrite Hps, Hst.
  - destruct (addPage_run w Hwf) as (w' & Hrun & Hwf' & Hdoc).
    exists w'. split; [done|]. split; [done|]. rewrite Hdoc.
    case_decide; [done|]. split; [by destruct (document w)|].
    apply Forall_app. split; [done|]. by repeat constructor.
  - destruct (removePage_run w i Hwf) as (w' & Hrun & Hwf' & Hdoc).
    exists w'. split; [done|]. split; [done|]. rewrite Hdoc.
    case_decide as Hlen.
    + split; [by destruct (splice1 i (document w))|]. by apply splice1_Forall.
    + split; [done|]. by repeat constructor.
  - exists w. by rewrite removePage_declined.
  - destruct (resetAll_run w c Hwf) as (w' & Hrun & Hwf' & Hdoc).
    exists w'. split; [done|]. split; [done|]. rewrite Hdoc.
    destruct c; [|done]. split; [done|]. by repeat constructor.
Qed.

(** Every world the component reaches satisfies the invariant; so the
    pages of the state are always distinct arrays of 100 cells. *)
Lemma reachable_invariant (JSON_parse : string -> option JsVal) (w : World) :
  reachable JSON_parse w -> invariant w.
Proof.
  induction 1 as [saved w Hrun|w w' e _ IH Hen Hrun].
  - destruct (mount_invariant JSON_parse saved) as (w0 & Hrun0 & Hinv).
    rewrite Hrun in Hrun0. by injection Hrun0 as <-.
  - destruct (handle_invariant w e IH Hen) as (w0 & Hrun0 & Hinv).
    rewrite Hrun in Hrun0. by injection Hrun0 as <-.
Qed.

(** * Further properties of the component *)

(** ** Safety of the transition system *)

(** X1. In every world the component reaches, from whatever saved value
    it was mounted on, the pages are distinct arrays of 100 cells and
    there is at least one; and an event raised by an element of the page
    never makes its handler throw, and leads to such a world again. *)
Theorem reachable_safe (JSON_parse : string -> option JsVal) (w : World) (e : Event) :
  reachable JSON_parse w -> enabled w e ->
  invariant w /\
  exists w', handle e w = Ok tt w' /\ reachable JSON_parse w' /\ invariant w'.
Proof.
  intros Hreach Hen. pose proof (reachable_invariant _ _ Hreach) as Hinv.
  split; [done|].
  destruct (handle_invariant w e Hinv Hen) as (w' & Hrun & Hinv').
  exists w'. split; [done|]. split; [|done]. by eapply reach_step.
Qed.

Lemma reachable_safe_witness :
  reachable (parseOnly []) (blankWorld 1) /\ enabled (blankWorld 1) (Change 0 99 "A") /\
  exists w', handleChange 0 99 "A" (blankWorld 1) = Ok tt w' /\
    length (document w') = 1.
Proof.
  assert (reachable (parseOnly []) (blankWorld 1)) as Hreach.
  { apply (reach_mount _ None). vm_compute. reflexivity. }
  assert (enabled (blankWorld 1) (Change 0 99 "A")) as Hen by (vm_compute; eauto).
  split; [exact Hreach|]. split; [exact Hen|].
  destruct (reachable_safe _ _ _ Hreach Hen) as (_ & w' & Hrun & _ & Hinv).
  exists w'. split; [exact Hrun|].
  simpl in Hrun. vm_compute in Hrun. injection Hrun as <-. reflexivity.
Defined.

(** ** More on handleChange *)

Lemma array_put_overwrite (arr : list JsVal) (i : nat) (v1 v2 : JsVal) :
  array_put (array_put arr i v1) i v2 = array_put arr i v2.
Proof.
  rewrite (array_put_in_range (array_put arr i v1)) by apply array_put_bound.
  unfold array_put. case_decide as Hi.
  - apply list_insert_insert_eq.
  - rewrite insert_app_r_alt by lia.
    rewrite insert_app_r_alt by (rewrite length_replicate; lia).
    rewrite length_replicate.
    by replace (i - length arr - (i - length arr)) with 0 by lia.
Qed.

Lemma array_put_commute (arr : list JsVal) (i j : nat) (v1 v2 : JsVal) :
  i < length arr -> j < length arr -> i <> j ->
  array_put (array_put arr i v1) j v2 = array_put (array_put arr j v2) i v1.
Proof.
  intros Hi Hj Hne.
  rewrite (array_put_in_range arr i), (array_put_in_range arr j) by done.
  rewrite !array_put_in_range by (by rewrite length_insert).
  by apply list_insert_insert_ne.
Qed.

(** What a cell lookup says about the references and the store. *)
Lemma cell_is_Some (w : World) (p c : nat) :
  wellFormed w -> is_Some (cell w p c) ->
  exists ref arr, pages w !! p = Some ref /\ store w !! ref = Some arr /\
    document w !! p = Some arr /\ c < length arr.
Proof.
  intros [Hb _] [old Hold]. unfold cell in Hold.
  destruct (document w !! p) as [page|] eqn:Hpage; [|done].
  simpl in Hold. pose proof (lookup_lt_Some _ _ _ Hold) as Hc.
  unfold document, deref in Hpage. rewrite list_lookup_fmap in Hpage.
  destruct (pages w !! p) as [ref|] eqn:Hp; [|done].
  simpl in Hpage. injection Hpage as Hpage.
  pose proof (Forall_lookup_1 _ _ _ _ Hb Hp) as Hlt. simpl in Hlt.
  destruct (lookup_lt_is_Some_2 _ _ Hlt) as [arr Harr].
  rewrite Harr in Hpage. simpl in Hpage. subst page.
  by exists ref, arr.
Qed.

(** X2. [handleChange] edits in place: the new state holds the very
    references of the old one and no array is created, so the Document
    read through the old state shows the new value too. *)
Theorem handleChange_in_place (w : World) (pageIndex cellIndex : nat) (value : string) :
  wellFormed w -> is_Some (cell w pageIndex cellIndex) ->
  exists w', handleChange pageIndex cellIndex value w = Ok tt w' /\
    pages w' = pages w /\ length (store w') = length (store w) /\
    (deref (store w') (pages w) !! pageIndex ≫= (.!! cellIndex)) = Some (JStr value).
Proof.
  intros Hwf Hcell.
  destruct (cell_is_Some w _ _ Hwf Hcell) as (ref & arr & Hp & Href & _ & Hc).
  eexists. split; [by eapply handleChange_run|]. simpl.
  split; [done|]. split; [apply length_insert|].
  rewrite (deref_lookup _ _ _ _ Hp). simpl.
  rewrite list_lookup_insert_eq by (by eapply lookup_lt_Some). simpl.
  apply array_put_lookup.
Qed.

Lemma handleChange_in_place_witness :
  wellFormed (blankWorld 2) /\ is_Some (cell (blankWorld 2) 1 0) /\
  exists w', handleChange 1 0 "A" (blankWorld 2) = Ok tt w' /\
    pages w' = [0; 1] /\ length (store w') = 2.
Proof.
  assert (is_Some (cell (blankWorld 2) 1 0)) as Hin by (vm_compute; eauto).
  split; [by_eval|]. split; [exact Hin|].
  destruct (handleChange_in_place (blankWorld 2) 1 0 "A" (worldOf_wellFormed _) Hin)
    as (w' & Hrun & Hps & Hlen & _).
  exists w'. split; [exact Hrun|]. split; [exact Hps | exact Hlen].
Defined.

(** X3. On a page index the state does not have, [handleChange] throws
    before anything is written: the world is left as it was. *)
Theorem handleChange_missing_page (w : World) (pageIndex cellIndex : nat) (value : string) :
  length (document w) <= pageIndex ->
  handleChange pageIndex cellIndex value w = Throw w.
Proof.
  intros Hp. unfold document in Hp. rewrite deref_length in Hp.
  unfold handleChange, array_set. run.
  by rewrite (lookup_ge_None_2 _ _ Hp).
Qed.

Lemma handleChange_missing_page_witness :
  length (document (blankWorld 2)) <= 2 /\
  handleChange 2 0 "A" (blankWorld 2) = Throw (blankWorld 2).
Proof.
  split; [vm_compute; lia|].
  apply handleChange_missing_page. vm_compute. lia.
Defined.

(** X4. On a cell index past the end of an existing page, [handleChange]
    does not fail: it grows the page to [cellIndex + 1] cells, the cells in
    between reading as undefined, so the page no longer has 100 cells. *)
Theorem handleChange_past_end_grows (w : World) (pageIndex cellIndex : nat)
    (page : list JsVal) (value : string) :
  wellFormed w -> document w !! pageIndex = Some page -> length page <= cellIndex ->
  exists w', handleChange pageIndex cellIndex value w = Ok tt w' /\
    document w' =
      <[pageIndex := page ++ replicate (cellIndex - length page) JUndefined ++ [JStr value]]>
        (document w) /\
    (forall page', document w' !! pageIndex = Some page' -> length page' = cellIndex + 1).
Proof.
  intros Hwf Hpage Hc.
  destruct (handleChange_document w pageIndex cellIndex page value Hwf Hpage)
    as (w' & Hrun & _ & Hdoc).
  exists w'. split; [done|]. rewrite Hdoc. unfold array_put.
  rewrite decide_False by lia. split; [done|].
  intros page'. rewrite list_lookup_insert_eq by (by eapply lookup_lt_Some).
  intros [= <-]. rewrite !length_app, length_replicate. simpl. lia.
Qed.

Lemma handleChange_past_end_grows_witness :
  wellFormed (blankWorld 1) /\ document (blankWorld 1) !! 0 = Some blankPage /\
  length blankPage <= 100 /\
  exists w', handleChange 0 100 "A" (blankWorld 1) = Ok tt w' /\
    document w' = [blankPage ++ [JStr "A"]] /\ ~ shaped (document w').
Proof.
  split; [by_eval|]. split; [reflexivity|]. split; [vm_compute; lia|].
  destruct (handleChange_past_end_grows (blankWorld 1) 0 100 blankPage "A"
              (worldOf_wellFormed _) eq_refl) as (w' & Hrun & Hdoc & Hlen).
  { vm_compute. lia. }
  exists w'. split; [exact Hrun|]. split; [exact Hdoc|].
  intros [_ Hcells]. rewrite Hdoc in Hcells.
  apply Forall_inv in Hcells. vm_compute in Hcells. discriminate.
Defined.

(** X5. The last write wins: two [handleChange] on the same cell end as
    the second alone does, whatever the indices. *)
Theorem handleChange_overwrite (w : World) (pageIndex cellIndex : nat) (v1 v2 : string) :
  (handleChange pageIndex cellIndex v1;; handleChange pageIndex cellIndex v2) w
  = handleChange pageIndex cellIndex v2 w.
Proof.
  destruct (pages w !! pageIndex) as [ref|] eqn:Hp.
  - destruct (store w !! ref) as [arr|] eqn:Href.
    + erewrite bind_Ok by (by eapply handleChange_run).
      erewrite (handleChange_run w) by done.
      erewrite handleChange_run; simpl; [|done|].
      2:{ apply list_lookup_insert_eq. by eapply lookup_lt_Some. }
      by rewrite list_insert_insert_eq, array_put_overwrite.
    + assert (forall v, handleChange pageIndex cellIndex v w = Throw w) as Hthrow.
      { intros v. unfold handleChange, array_set. run. by rewrite Hp, Href. }
      erewrite bind_Throw by apply Hthrow. by rewrite Hthrow.
  - assert (forall v, handleChange pageIndex cellIndex v w = Throw w) as Hthrow.
    { intros v. unfold handleChange, array_set. run. by rewrite Hp. }
    erewrite bind_Throw by apply Hthrow. by rewrite Hthrow.
Qed.

(** X6. Edits of two different existing cells commute: either order ends
    in the same world. *)
Theorem handleChange_commute (w : World) (p1 c1 p2 c2 : nat) (v1 v2 : string) :
  wellFormed w -> is_Some (cell w p1 c1) -> is_Some (cell w p2 c2) ->
  (p1, c1) <> (p2, c2) ->
  (handleChange p1 c1 v1;; handleChange p2 c2 v2) w
  = (handleChange p2 c2 v2;; handleChange p1 c1 v1) w.
Proof.
  intros Hwf H1 H2 Hne.
  destruct (cell_is_Some w _ _ Hwf H1) as (r1 & a1 & Hp1 & Hr1 & _ & Hc1).
  destruct (cell_is_Some w _ _ Hwf H2) as (r2 & a2 & Hp2 & Hr2 & _ & Hc2).
  pose proof (lookup_lt_Some _ _ _ Hr1) as Hl1.
  pose proof (lookup_lt_Some _ _ _ Hr2) as Hl2.
  erewrite (bind_Ok (handleChange p1 c1 v1)) by (by eapply handleChange_run).
  erewrite (bind_Ok (handleChange p2 c2 v2)) by (by eapply handleChange_run).
  destruct (decide (r1 = r2)) as [->|Hr].
  - rewrite Hr1 in Hr2. injection Hr2 as <-.
    assert (c1 <> c2) as Hc.
    { intros ->. apply Hne. f_equal. destruct Hwf as [_ Hnd].
      by eapply NoDup_lookup. }
    rewrite (handleChange_run _ p2 c2 r2 (array_put a1 c1 (JStr v1)) v2);
      [|done|by apply list_lookup_insert_eq].
    rewrite (handleChange_run _ p1 c1 r2 (array_put a1 c2 (JStr v2)) v1);
      [|done|by apply list_lookup_insert_eq].
    simpl. by rewrite !list_insert_insert_eq, array_put_commute.
  - rewrite (handleChange_run _ p2 c2 r2 a2 v2);
      [|done|by simpl; rewrite list_lookup_insert_ne].
    rewrite (handleChange_run _ p1 c1 r1 a1 v1);
      [|done|by simpl; rewrite list_lookup_insert_ne].
    simpl. by rewrite list_insert_insert_ne.
Qed.

Lemma handleChange_commute_witness :
  wellFormed (blankWorld 2) /\ is_Some (cell (blankWorld 2) 0 5) /\
  is_Some (cell (blankWorld 2) 1 5) /\ (0, 5) <> (1, 5) /\
  (handleChange 0 5 "A";; handleChange 1 5 "B") (blankWorld 2)
  = (handleChange 1 5 "B";; handleChange 0 5 "A") (blankWorld 2).
Proof.
  assert (is_Some (cell (blankWorld 2) 0 5)) as H1 by (vm_compute; eauto).
  assert (is_Some (cell (blankWorld 2) 1 5)) as H2 by (vm_compute; eauto).
  split; [by_eval|]. split; [exact H1|]. split; [exact H2|]. split; [discriminate|].
  apply (handleChange_commute (blankWorld 2) 0 5 1 5 "A" "B" (worldOf_wellFormed _) H1 H2).
  discriminate.
Defined.

(** ** More on addPage, removePage and resetAll *)

Lemma splice1_last {A : Type} (l : list A) (x : A) :
  splice1 (length l) (l ++ [x]) = l.
Proof.
  unfold splice1. rewrite take_app_length.
  rewrite drop_ge by (rewrite length_app; simpl; lia). apply app_nil_r.
Qed.

Lemma splice1_out_of_range {A : Type} (i : nat) (l : list A) :
  length l <= i -> splice1 i l = l.
Proof.
  intros H. unfold splice1. rewrite take_ge by done.
  rewrite drop_ge by lia. apply app_nil_r.
Qed.

(** X7. Adding a page and then removing the page just added gives back
    the Document there was. *)
Theorem addPage_removePage (w : World) :
  wellFormed w -> document w <> [] -> length (document w) < maxPages ->
  exists w', (addPage;; removePage true (length (document w))) w = Ok tt w' /\
    document w' = document w.
Proof.
  intros Hwf Hne Hlen.
  destruct (addPage_run w Hwf) as (w1 & Hrun1 & Hwf1 & Hdoc1).
  rewrite decide_False in Hdoc1 by lia.
  destruct (removePage_run w1 (length (document w)) Hwf1) as (w2 & Hrun2 & _ & Hdoc2).
  exists w2. split; [by erewrite bind_Ok|].
  rewrite Hdoc2, Hdoc1, splice1_last.
  rewrite decide_True; [done|]. by destruct (document w).
Qed.

Lemma addPage_removePage_witness :
  wellFormed (worldOf twoPages) /\ document (worldOf twoPages) <> [] /\
  length (document (worldOf twoPages)) < maxPages /\
  exists w', (addPage;; removePage true 2) (worldOf twoPages) = Ok tt w' /\
    document w' = twoPages.
Proof.
  split; [by_eval|]. split; [discriminate|]. split; [vm_compute; lia|].
  destruct (addPage_removePage (worldOf twoPages) (worldOf_wellFormed _))
    as (w' & Hrun & Hdoc); [discriminate|vm_compute; lia|].
  exists w'. split; [exact Hrun | exact Hdoc].
Defined.

Lemma addPage_rerendered (k : nat) (w : World) :
  wellFormed w ->
  exists w', times k addPage w = Ok tt w' /\ wellFormed w' /\
    let n := length (document w) in
    let n' := Nat.max n (Nat.min 5 (n + k)) in
    document w' = document w ++ replicate (n' - n) (replicate 100 (JStr EmptyString)) /\
    alerts w' = alerts w ++ replicate (k - (n' - n)) "Maximum 5 pages allowed.".
Proof.
  revert w. induction k as [|k IH]; intros w Hwf; cbn [times].
  - exists w. split; [done|]. split; [done|]. cbv zeta.
    replace (Nat.max _ _ - _) with 0 by lia.
    replace (0 - 0) with 0 by lia. simpl. by rewrite !app_nil_r.
  - destruct (addPage_run w Hwf) as (w1 & Hrun1 & Hwf1 & Hdoc1).
    destruct (IH w1 Hwf1) as (w2 & Hrun2 & Hwf2 & Hdoc2 & Hal2).
    exists w2. split; [by rewrite (bind_Ok _ _ _ _ _ Hrun1)|]. split; [done|].
    assert (alerts w1 = if decide (maxPages <= length (document w))
                        then alerts w ++ ["Maximum 5 pages allowed."] else alerts w) as Hal1.
    { revert Hrun1. unfold addPage, addPageIn, document. run. rewrite deref_length.
      destruct (decide (maxPages <= length (pages w))); by intros [= <-]. }
    unfold maxPages in *.
    destruct (decide (5 <= length (document w))) as [Hfull|Hfull];
      cbv zeta; rewrite Hdoc2, Hal2, Hdoc1, Hal1; clear Hdoc2 Hal2 Hdoc1 Hal1;
      [|rewrite length_app; cbn [length]];
      set (n := length (document w)) in *.
    + replace (Nat.max n (Nat.min 5 (n + k)) - n) with 0 by lia.
      replace (Nat.max n (Nat.min 5 (n + S k)) - n) with 0 by lia.
      replace (k - 0) with k by lia. replace (S k - 0) with (S k) by lia.
      cbn [replicate]. by rewrite !app_nil_r, <- app_assoc.
    + replace (Nat.max (n + 1) (Nat.min 5 (n + 1 + k)) - (n + 1))
        with (Nat.min 5 (n + 1 + k) - (n + 1)) by lia.
      replace (Nat.max n (Nat.min 5 (n + S k)) - n)
        with (S (Nat.min 5 (n + 1 + k) - (n + 1))) by lia.
      replace (S k - S (Nat.min 5 (n + 1 + k) - (n + 1)))
        with (k - (Nat.min 5 (n + 1 + k) - (n + 1))) by lia.
      split; [|done]. cbn [replicate]. by rewrite <- app_assoc.
Qed.

Lemma addPageIn_run (closure : list nat) (w : World) :
  wellFormed w ->
  exists w', addPageIn closure w = Ok tt w' /\ wellFormed w' /\
    if decide (maxPages <= length closure)
    then document w' = document w /\ alerts w' = alerts w ++ ["Maximum 5 pages allowed."]
    else document w' = document w ++ [blankPage] /\ alerts w' = alerts w.
Proof.
  intros [Hb Hnd]. unfold addPageIn, document. run.
  destruct (decide (maxPages <= length closure)) as [Hfull|Hfull].
  - eexists. split; [reflexivity|]. by simpl.
  - eexists. split; [reflexivity|]. unfold wellFormed. simpl. split.
    + split; [|by apply wellFormed_fresh].
      apply Forall_app. split.
      * eapply Forall_lt_weaken; [|exact Hb]. rewrite length_app. lia.
      * constructor; [|constructor]. simpl. rewrite length_app. simpl. lia.
    + by rewrite deref_app, deref_alloc, deref_fresh.
Qed.

Lemma addPageIn_times (closure : list nat) (k : nat) (w : World) :
  wellFormed w ->
  exists w', times k (addPageIn closure) w = Ok tt w' /\ wellFormed w' /\
    if decide (maxPages <= length closure)
    then document w' = document w /\
         alerts w' = alerts w ++ replicate k "Maximum 5 pages allowed."
    else document w' = document w ++ replicate k blankPage /\ alerts w' = alerts w.
Proof.
  revert w. induction k as [|k IH]; intros w Hwf; cbn [times].
  - exists w. split; [done|]. split; [done|].
    case_decide; cbn [replicate]; by rewrite app_nil_r.
  - destruct (addPageIn_run closure w Hwf) as (w1 & Hrun1 & Hwf1 & H1).
    destruct (IH w1 Hwf1) as (w2 & Hrun2 & Hwf2 & H2).
    exists w2. split; [by rewrite (bind_Ok _ _ _ _ _ Hrun1)|]. split; [done|].
    destruct (decide (maxPages <= length closure)) as [Hfull|Hfull].
    + destruct H1 as [Hd1 Ha1], H2 as [Hd2 Ha2].
      rewrite Hd2, Ha2, Hd1, Ha1. cbn [replicate]. by rewrite <- app_assoc.
    + destruct H1 as [Hd1 Ha1], H2 as [Hd2 Ha2].
      rewrite Hd2, Ha2, Hd1, Ha1. cbn [replicate]. by rewrite <- app_assoc.
Qed.

(** X8. The cap of 5 pages holds from render to render, not within one.
    When every call is made by the handler of the state the call before
    left, [k] calls on a Document of [n] pages leave
    [max n (min 5 (n + k))] pages, the old ones followed by blank ones,
    and each call that added nothing raised the alert.  When the [k] calls
    are all made by the handler of one render, the guard tests the pages
    of that render each time: on fewer than 5 pages every call appends a
    blank page and none alerts, so more than 5 pages can result; on 5 or
    more every call alerts and nothing is added. *)
Theorem addPage_times (k : nat) (w : World) :
  wellFormed w ->
  (exists w', times k addPage w = Ok tt w' /\ wellFormed w' /\
     let n := length (document w) in
     let n' := Nat.max n (Nat.min 5 (n + k)) in
     document w' = document w ++ replicate (n' - n) (replicate 100 (JStr EmptyString)) /\
     alerts w' = alerts w ++ replicate (k - (n' - n)) "Maximum 5 pages allowed.") /\
  (exists w', times k (addPageIn (pages w)) w = Ok tt w' /\ wellFormed w' /\
     if decide (length (document w) < 5)
     then document w' = document w ++ replicate k (replicate 100 (JStr EmptyString)) /\
          alerts w' = alerts w
     else document w' = document w /\
          alerts w' = alerts w ++ replicate k "Maximum 5 pages allowed.").
Proof.
  intros Hwf. split; [by apply addPage_rerendered|].
  destruct (addPageIn_times (pages w) k w Hwf) as (w' & Hrun & Hwf' & H).
  exists w'. split; [done|]. split; [done|].
  assert (length (document w) = length (pages w)) as Hlen by apply deref_length.
  unfold maxPages in H.
  destruct (decide (5 <= length (pages w))) as [Hfull|Hfull].
  - by rewrite decide_False by lia.
  - by rewrite decide_True by lia.
Qed.

Lemma addPage_times_witness :
  wellFormed (blankWorld 4) /\
  (exists w', times 2 addPage (blankWorld 4) = Ok tt w' /\
     length (document w') = 5 /\ alerts w' = ["Maximum 5 pages allowed."]) /\
  (exists w', times 2 (addPageIn (pages (blankWorld 4))) (blankWorld 4) = Ok tt w' /\
     length (document w') = 6 /\ alerts w' = []).
Proof.
  split; [by_eval|].
  destruct (addPage_times 2 (blankWorld 4) (worldOf_wellFormed _))
    as [(w1 & Hrun1 & _ & Hdoc1 & Hal1) (w2 & Hrun2 & _ & H2)].
  split.
  - exists w1. split; [exact Hrun1|]. split.
    + rewrite Hdoc1. reflexivity.
    + rewrite Hal1. reflexivity.
  - exists w2. split; [exact Hrun2|].
    rewrite decide_True in H2 by (vm_compute; lia). destruct H2 as [Hdoc2 Hal2].
    split.
    + rewrite Hdoc2. reflexivity.
    + rewrite Hal2. reflexivity.
Defined.

(** X9. [removePage] with an index past the last page removes nothing:
    [splice] finds no element there and a confirmed call leaves the world
    as it was. *)
Theorem removePage_out_of_range (w : World) (index : nat) :
  document w <> [] -> length (document w) <= index ->
  removePage true index w = Ok tt w.
Proof.
  intros Hne Hlen. unfold document in *. rewrite deref_length in Hlen.
  unfold removePage. run. rewrite splice1_out_of_range by done.
  rewrite decide_True; [by rewrite world_eta|].
  destruct (pages w); [done|simpl; lia].
Qed.

Lemma removePage_out_of_range_witness :
  document (worldOf twoPages) <> [] /\ length (document (worldOf twoPages)) <= 2 /\
  removePage true 2 (worldOf twoPages) = Ok tt (worldOf twoPages).
Proof.
  split; [discriminate|]. split; [vm_compute; lia|].
  apply removePage_out_of_range; [discriminate|vm_compute; lia].
Defined.

(** X10. A confirmed [resetAll] leaves exactly one blank page of 100 empty
    cells whatever the state held, in a new array and without an alert; a
    declined one changes nothing. *)
Theorem resetAll_spec (w : World) :
  resetAll false w = Ok tt w /\
  exists w', resetAll true w = Ok tt w' /\
    document w' = [replicate 100 (JStr EmptyString)] /\
    pages w' = [length (store w)] /\ alerts w' = alerts w.
Proof.
  split; [done|]. unfold resetAll, document. run.
  eexists. split; [reflexivity|]. simpl. split; [apply deref_fresh|done].
Qed.

(** ** More on restoring and saving *)

(** X11. Mounting never raises an alert and moves no focus.  The one
    trace a bad saved value leaves is a console error, logged exactly when
    a non-empty text fails to parse; a text that parses to a value of the
    wrong shape is dropped without a word. *)
Theorem mount_log (JSON_parse : string -> option JsVal) (saved : option string) :
  exists w, mount JSON_parse saved emptyWorld = Ok tt w /\
    alerts w = [] /\ focus w = None /\
    console w =
      match saved with
      | Some (String a s) =>
        match JSON_parse (String a s) with
        | None => ["Error parsing saved data:"]
        | Some _ => []
        end
      | _ => []
      end.
Proof.
  unfold mount, initializePagesWith, parseSaved.
  destruct saved as [[|a s]|]; simpl.
  - run. by eexists.
  - destruct (JSON_parse (String a s)) as [v|].
    + destruct (acceptSaved v).
      * erewrite bind_Ok by apply mapM_alloc. run. by eexists.
      * run. by eexists.
    + run. by eexists.
  - run. by eexists.
Qed.

(** X12. What the effect saves is what the next mount restores: for a
    state of at least one page, 100 cells a page, the guard of
    [initializePages] accepts the saved text, provided [JSON.parse] reads
    back what [JSON.stringify] wrote, and the new session starts with the
    same Document and an empty console. *)
Theorem persist_restore (JSON_parse : string -> option JsVal)
    (JSON_stringify : JsVal -> string) (w : World) :
  JSON_parse EmptyString = None ->
  JSON_parse (JSON_stringify (pagesValue w)) = Some (pagesValue w) ->
  invariant w ->
  exists w', mount JSON_parse (Some (persistEffect JSON_stringify w)) emptyWorld = Ok tt w' /\
    document w' = document w /\ console w' = [].
Proof.
  intros Hempty Hround (_ & Hne & Hcells).
  eexists. split.
  { apply mount_accepted; [|exact Hne|exact Hcells].
    apply parseSaved_text; [exact Hempty|exact Hround]. }
  unfold document at 1. simpl.
  pose proof (deref_seq [] (document w)) as Hd. simpl in Hd. by rewrite Hd.
Qed.

Lemma persist_restore_witness :
  parseOnly [omPage] EmptyString = None /\
  parseOnly [omPage] (stringifyTexts (pagesValue (worldOf [textPage omPage])))
  = Some (pagesValue (worldOf [textPage omPage])) /\
  invariant (worldOf [textPage omPage]) /\
  exists w', mount (parseOnly [omPage])
               (Some (persistEffect stringifyTexts (worldOf [textPage omPage])))
               emptyWorld = Ok tt w' /\
    document w' = [textPage omPage].
Proof.
  assert (invariant (worldOf [textPage omPage])) as Hinv.
  { split; [apply worldOf_wellFormed|]. rewrite worldOf_document.
    split; [discriminate|]. by repeat constructor. }
  assert (parseOnly [omPage] (stringifyTexts (pagesValue (worldOf [textPage omPage])))
          = Some (pagesValue (worldOf [textPage omPage]))) as Hround
    by (vm_compute; reflexivity).
  split; [reflexivity|]. split; [exact Hround|]. split; [exact Hinv|].
  destruct (persist_restore (parseOnly [omPage]) stringifyTexts
              (worldOf [textPage omPage]) eq_refl Hround Hinv) as (w' & Hrun & Hdoc & _).
  exists w'. split; [exact Hrun|]. rewrite Hdoc. apply worldOf_document.
Defined.

(** ** More on handleKeyDown *)

Lemma handleKeyDown_Enter_run (w : World) (p c : nat) :
  wellFormed w ->
  handleKeyDown "Enter" p c w =
    Ok tt (match cell w (nextPageIndex p c) (nextIndex c) with
           | Some _ =>
             {| store := store w; pages := pages w;
                focus := Some (nextPageIndex p c, nextIndex c);
                alerts := alerts w; console := console w |}
           | None => w
           end).
Proof.
  intros [Hb _]. unfold handleKeyDown, querySelector_cell, cell, document. run.
  destruct (pages w !! nextPageIndex p c) as [ref|] eqn:Hp.
  - pose proof (Forall_lookup_1 _ _ _ _ Hb Hp) as Hlt. simpl in Hlt.
    destruct (lookup_lt_is_Some_2 _ _ Hlt) as [arr Harr].
    rewrite (deref_lookup _ _ _ _ Hp), Harr. simpl.
    destruct (decide (nextIndex c < length arr)) as [Hin|Hin].
    + destruct (lookup_lt_is_Some_2 _ _ Hin) as [x Hx]. by rewrite Hx.
    + by rewrite (lookup_ge_None_2 arr (nextIndex c)) by lia.
  - unfold deref. by rewrite list_lookup_fmap, Hp.
Qed.

(** X13. Enter walks the cells in reading order.  From an existing cell
    of a state with 100 cells a page, the focus moves to the cell whose
    position, counting through all the pages, is one more; from the last
    cell of the last page nothing changes. *)
Theorem handleKeyDown_reading_order (w : World) (pageIndex cellIndex : nat) :
  invariant w -> is_Some (cell w pageIndex cellIndex) ->
  exists w', handleKeyDown "Enter" pageIndex cellIndex w = Ok tt w' /\
    if decide (linear pageIndex cellIndex + 1 < 100 * length (document w))
    then exists p c, focus w' = Some (p, c) /\ is_Some (cell w p c) /\
           linear p c = linear pageIndex cellIndex + 1
    else w' = w.
Proof.
  intros (Hwf & _ & Hcells) Hcell.
  destruct (cell_is_Some w _ _ Hwf Hcell) as (ref & arr & Hp & Href & Hpage & Hc).
  pose proof (Forall_lookup_1 _ _ _ _ Hcells Hpage) as Hlen. simpl in Hlen.
  pose proof (lookup_lt_Some _ _ _ Hpage) as Hplt.
  unfold cellsPerPage in Hlen. rewrite Hlen in Hc.
  eexists. split; [by apply handleKeyDown_Enter_run|].
  rewrite (nextPageIndex_wrap pageIndex cellIndex) by done.
  unfold nextIndex, linear, cellsPerPage.
  destruct (decide (cellIndex = 99)) as [->|H99].
  - change ((99 + 1) mod 100) with 0.
    destruct (document w !! (pageIndex + 1)) as [next|] eqn:Hnext.
    + pose proof (Forall_lookup_1 _ _ _ _ Hcells Hnext) as Hlen'. simpl in Hlen'.
      pose proof (lookup_lt_Some _ _ _ Hnext) as Hnlt.
      destruct (lookup_lt_is_Some_2 next 0) as [x Hx]; [unfold cellsPerPage in *; lia|].
      assert (cell w (pageIndex + 1) 0 = Some x) as Hcell' by (unfold cell; by rewrite Hnext).
      rewrite Hcell'. rewrite decide_True by lia.
      exists (pageIndex + 1), 0. simpl. split; [done|]. split; [by eexists|]. lia.
    + assert (cell w (pageIndex + 1) 0 = None) as Hcell' by (unfold cell; by rewrite Hnext).
      rewrite Hcell'. apply lookup_ge_None in Hnext. by rewrite decide_False by lia.
  - rewrite Nat.mod_small by lia.
    destruct (lookup_lt_is_Some_2 arr (cellIndex + 1)) as [x Hx]; [lia|].
    assert (cell w pageIndex (cellIndex + 1) = Some x) as Hcell'
      by (unfold cell; by rewrite Hpage).
    rewrite Hcell'. rewrite decide_True by lia.
    exists pageIndex, (cellIndex + 1). simpl. split; [done|]. split; [by eexists|]. lia.
Qed.

Lemma handleKeyDown_reading_order_witness :
  invariant (blankWorld 2) /\ is_Some (cell (blankWorld 2) 0 99) /\
  exists w', handleKeyDown "Enter" 0 99 (blankWorld 2) = Ok tt w' /\
    exists p c, focus w' = Some (p, c) /\ linear p c = 100.
Proof.
  assert (invariant (blankWorld 2)) as Hinv.
  { split; [apply worldOf_wellFormed|]. unfold blankWorld. rewrite worldOf_document.
    split; [discriminate|]. by repeat constructor. }
  assert (is_Some (cell (blankWorld 2) 0 99)) as Hin by (vm_compute; eauto).
  split; [exact Hinv|]. split; [exact Hin|].
  destruct (handleKeyDown_reading_order (blankWorld 2) 0 99 Hinv Hin) as (w' & Hrun & Hnext).
  exists w'. split; [exact Hrun|].
  destruct (decide (linear 0 99 + 1 < 100 * length (document (blankWorld 2)))) as [_|Hno].
  - destruct Hnext as (p & c & Hf & _ & Hl). exists p, c. split; [exact Hf | exact Hl].
  - exfalso. apply Hno. vm_compute. lia.
Defined.

(** X14. Whatever the key and the indices, [handleKeyDown] ends normally
    and changes at most the focus; on a key other than Enter it changes
    nothing. *)
Theorem handleKeyDown_focus_only (w : World) (key : string) (pageIndex cellIndex : nat) :
  wellFormed w ->
  exists w', handleKeyDown key pageIndex cellIndex w = Ok tt w' /\
    store w' = store w /\ pages w' = pages w /\
    alerts w' = alerts w /\ console w' = console w /\
    (key <> "Enter" -> w' = w).
Proof.
  intros Hwf. destruct (String.eqb key "Enter") eqn:Hkey.
  - apply String.eqb_eq in Hkey as ->.
    eexists. split; [by apply handleKeyDown_Enter_run|].
    destruct (cell w _ _); done.
  - exists w. unfold handleKeyDown. by rewrite Hkey.
Qed.

Lemma handleKeyDown_focus_only_witness :
  wellFormed (blankWorld 1) /\
  handleKeyDown "Tab" 0 0 (blankWorld 1) = Ok tt (blankWorld 1).
Proof.
  split; [by_eval|].
  destruct (handleKeyDown_focus_only (blankWorld 1) "Tab" 0 0 (worldOf_wellFormed _))
    as (w' & Hrun & _ & _ & _ & _ & Hsame).
  rewrite Hrun. f_equal. apply Hsame. discriminate.
Defined.

(** ** More on rendering *)

Lemma array_at_seq_any {B : Type} (g : JsVal -> B) (arr : list JsVal) (n : nat) :
  ((fun i => g (array_at arr i)) <$> seq 0 n)
  = (g <$> take n arr) ++ replicate (n - length arr) (g JUndefined).
Proof.
  apply list_eq. intros i. rewrite list_lookup_fmap.
  destruct (decide (i < n)) as [Hi|Hi].
  - rewrite lookup_seq_lt by done. simpl. unfold array_at.
    destruct (arr !! i) as [x|] eqn:Hx.
    + rewrite lookup_app_l by (rewrite length_fmap, length_take;
                               apply lookup_lt_Some in Hx; lia).
      by rewrite list_lookup_fmap, lookup_take_lt, Hx.
    + apply lookup_ge_None in Hx.
      rewrite lookup_app_r by (rewrite length_fmap, length_take; lia).
      rewrite length_fmap, length_take. simpl. symmetry.
      apply lookup_replicate_2. lia.
  - rewrite lookup_seq_ge by lia. simpl. symmetry. apply lookup_ge_None.
    rewrite length_app, length_fmap, length_take, length_replicate. lia.
Qed.

(** X15. Whatever the length of a page array, its print page has exactly
    100 slots: the first 100 cells, each falsy one shown as a space,
    padded with spaces when the array is shorter; a cell past index 99 is
    never printed. *)
Theorem MantraPDF_any_length (w : World) :
  wellFormed w ->
  exists tree, MantraPDF (pages w) w = Ok tree w /\
    forall i page, document w !! i = Some page ->
      exists printed, printPages tree !! i = Some printed /\
        length (concat (gridOf printed)) = 100 /\
        concat (gridOf printed) =
          ((fun v => if truthy v then v else JStr " ") <$> take 100 page)
          ++ replicate (100 - length page) (JStr " ").
Proof.
  intros Hwf. eexists. split; [by apply MantraPDF_run|]. simpl.
  intros i page Hpage. exists (pageNode i page).
  split; [by rewrite list_lookup_imap, Hpage|].
  destruct (gridOf_pageNode i page) as [_ Hslots]. rewrite Hslots.
  split; [by rewrite length_fmap, length_seq|].
  apply (array_at_seq_any (fun v => js_or v (JStr " "))).
Qed.

Lemma MantraPDF_any_length_witness :
  wellFormed (worldOf [[JStr "A"; JNull]]) /\
  exists tree, MantraPDF [0] (worldOf [[JStr "A"; JNull]])
               = Ok tree (worldOf [[JStr "A"; JNull]]) /\
    exists printed, printPages tree !! 0 = Some printed /\
      concat (gridOf printed) = JStr "A" :: replicate 99 (JStr " ").
Proof.
  split; [by_eval|].
  destruct (MantraPDF_any_length (worldOf [[JStr "A"; JNull]]) (worldOf_wellFormed _))
    as (tree & Hrun & Hpages).
  exists tree. split; [exact Hrun|].
  destruct (Hpages 0 [JStr "A"; JNull] eq_refl) as (printed & Hp & _ & Hslots).
  exists printed. split; [exact Hp | exact Hslots].
Defined.

(** X16. The export depends on the Document alone: [downloadPDF] hands
    the PDF library the tree [MantraPDF] builds from the current pages and
    ends with the blob it resolves to, or throws when it rejects; two
    states with the same Document export the same. *)
Theorem downloadPDF_outcome (Blob : Type) (pdf_toBlob : Node -> option Blob)
    (w1 w2 : World) :
  wellFormed w1 -> wellFormed w2 -> document w1 = document w2 ->
  outcome (downloadPDF Blob pdf_toBlob w1)
  = (outcome (MantraPDF (pages w1) w1) ≫= pdf_toBlob) /\
  outcome (MantraPDF (pages w1) w1) = outcome (MantraPDF (pages w2) w2) /\
  outcome (downloadPDF Blob pdf_toBlob w1) = outcome (downloadPDF Blob pdf_toBlob w2).
Proof.
  intros Hwf1 Hwf2 Hdoc.
  assert (forall w, wellFormed w ->
            outcome (downloadPDF Blob pdf_toBlob w)
            = pdf_toBlob (Elem TDocument None None (imap pageNode (document w)))) as Hdl.
  { intros w Hwf. unfold downloadPDF. erewrite bind_Ok by reflexivity.
    erewrite bind_Ok by (by apply MantraPDF_run).
    by destruct (pdf_toBlob _). }
  rewrite !Hdl, !MantraPDF_run by done. simpl. by rewrite Hdoc.
Qed.

Lemma downloadPDF_outcome_witness :
  wellFormed (blankWorld 1) /\
  wellFormed {| store := [[JNull]; blankPage]; pages := [1]; focus := Some (0, 3);
                alerts := ["x"]; console := [] |} /\
  outcome (downloadPDF nat (fun tree => Some (length (printPages tree))) (blankWorld 1))
  = Some 1.
Proof.
  split; [by_eval|]. split; [by_eval|].
  destruct (downloadPDF_outcome nat (fun tree => Some (length (printPages tree)))
              (blankWorld 1)
              {| store := [[JNull]; blankPage]; pages := [1]; focus := Some (0, 3);
                 alerts := ["x"]; console := [] |}
              (worldOf_wellFormed _)) as (_ & _ & Hsame).
  - by_eval.
  - reflexivity.
  - rewrite Hsame. vm_compute. reflexivity.
Defined.

(** ** The rendered page *)

Lemma renderCard_run (w : World) (pageIndex ref : nat) (arr : list JsVal) :
  store w !! ref = Some arr ->
  renderCard pageIndex ref w = Ok (cardOf pageIndex arr) w.
Proof. intros Href. unfold renderCard, array_read. run. by rewrite Href. Qed.

Lemma render_run (w : World) :
  wellFormed w -> render w = Ok (imap cardOf (document w)) w.
Proof.
  intros [Hb _]. unfold render. erewrite bind_Ok by reflexivity.
  rewrite (mapM_pure _ (fun ip => cardOf ip.1 (default [] (store w !! ip.2)))).
  - f_equal. unfold document, deref. rewrite fmap_imap, imap_fmap. by apply imap_ext.
  - apply Forall_lookup. intros i [j ref] Hi.
    rewrite list_lookup_imap in Hi.
    destruct (pages w !! i) as [r|] eqn:Hr; [|done].
    simpl in Hi. injection Hi as <- <-.
    pose proof (Forall_lookup_1 _ _ _ _ Hb Hr) as Hlt. simpl in Hlt.
    destruct (lookup_lt_is_Some_2 _ _ Hlt) as [arr Harr].
    simpl. rewrite Harr. by apply renderCard_run.
Qed.

(** The inputs of the page are those of the slots of the Document that
    were not skipped. *)
Lemma inputsOf_In (d : list (list JsVal)) (inp : Input) :
  In inp (inputsOf (imap cardOf d)) <->
  exists p c page v, d !! p = Some page /\ page !! c = Some v /\
    isHole v = false /\ inp = mkInput (cellId p c) v (p, c).
Proof.
  unfold inputsOf. rewrite in_concat. split.
  - intros (inputs & Hin & Hinp).
    apply list_elem_of_In, list_elem_of_fmap in Hin as (card & -> & Hcard).
    apply list_elem_of_lookup in Hcard as (p & Hcard).
    rewrite list_lookup_imap in Hcard.
    destruct (d !! p) as [page|] eqn:Hpage; [|done].
    simpl in Hcard. injection Hcard as <-. simpl in Hinp.
    apply list_elem_of_In, list_elem_of_omap in Hinp as ([c v] & Hslot & Hinp).
    apply list_elem_of_lookup in Hslot as (c' & Hslot).
    rewrite list_lookup_imap in Hslot.
    destruct (page !! c') as [v'|] eqn:Hv; [|done].
    simpl in Hslot. injection Hslot as <- <-.
    unfold inputOf in Hinp. simpl in Hinp.
    destruct (isHole v') eqn:Hhole; [done|]. injection Hinp as <-.
    by exists p, c', page, v'.
  - intros (p & c & page & v & Hpage & Hv & Hhole & ->).
    exists (card_inputs (cardOf p page)). split.
    + apply list_elem_of_In, list_elem_of_fmap. exists (cardOf p page).
      split; [done|]. apply list_elem_of_lookup. exists p.
      by rewrite list_lookup_imap, Hpage.
    + apply list_elem_of_In, list_elem_of_omap. exists (c, v). split.
      * apply list_elem_of_lookup. exists c. by rewrite list_lookup_imap, Hv.
      * unfold inputOf. simpl. by rewrite Hhole.
Qed.

(** The inputs [page.map] makes, read back as slots. *)
Lemma inputOf_slots (i : nat) (slots : list (nat * JsVal)) :
  ((fun inp => (input_cell inp, input_value inp)) <$> omap (inputOf i) slots)
  = ((fun slot => ((i, slot.1), slot.2))
       <$> List.filter (fun slot => negb (isHole slot.2)) slots).
Proof.
  induction slots as [|[c v] slots IH]; [done|].
  cbn [omap list_omap List.filter]. unfold inputOf at 1. cbn [snd fst].
  destruct (isHole v); cbn [negb]; [exact IH|].
  cbn [fmap list_fmap]. f_equal. exact IH.
Qed.

Lemma inputOf_dense (i : nat) (page : list JsVal) :
  Forall (fun v => v <> JUndefined) page ->
  omap (inputOf i) (imap pair page)
  = imap (fun c v => mkInput (cellId i c) v (i, c)) page.
Proof.
  intros Hdense.
  assert (forall (f : nat -> nat),
            omap (inputOf i) (imap (fun c v => (f c, v)) page)
            = imap (fun c v => mkInput (cellId i (f c)) v (i, f c)) page) as Hgen.
  { induction Hdense as [|v page Hv _ IH]; intros f; [done|].
    cbn [imap omap list_omap]. unfold inputOf at 1. cbn [snd fst].
    destruct v; try done; cbn [isHole]; f_equal; apply (IH (f ∘ S)). }
  apply (Hgen id).
Qed.

(** X17. The page shows the Document: one card per page, in order,
    headed by the page number [i + 1] and with a Remove button for index
    [i]; its inputs are those of the slots of the page that were not
    skipped, in order, each holding the cell and passing [(i, c)] to the
    handlers.  A page without skipped slots has one input per cell.
    Rendering changes nothing. *)
Theorem render_shows_document (w : World) :
  wellFormed w ->
  exists cards, render w = Ok cards w /\
    length cards = length (document w) /\
    forall i page, document w !! i = Some page ->
      exists card, cards !! i = Some card /\
        card_number card = i + 1 /\ card_remove card = i /\
        ((fun inp => (input_cell inp, input_value inp)) <$> card_inputs card)
        = ((fun slot => ((i, slot.1), slot.2))
             <$> List.filter (fun slot => negb (isHole slot.2)) (imap pair page)) /\
        (Forall (fun v => v <> JUndefined) page ->
           (input_value <$> card_inputs card) = page /\
           (input_cell <$> card_inputs card) = (pair i <$> seq 0 (length page))).
Proof.
  intros Hwf. eexists. split; [by apply render_run|].
  split; [apply length_imap|].
  intros i page Hpage. exists (cardOf i page).
  split; [by rewrite list_lookup_imap, Hpage|].
  split; [done|]. split; [done|]. cbn [card_inputs cardOf].
  split; [apply inputOf_slots|].
  intros Hdense. rewrite inputOf_dense by done. split.
  - rewrite fmap_imap. rewrite <- (list_fmap_id page) at 2.
    rewrite <- imap_const. by apply imap_ext.
  - rewrite fmap_imap. rewrite <- (imap_seq_0 page (pair i)). by apply imap_ext.
Qed.

Lemma render_shows_document_witness :
  wellFormed (worldOf twoPages) /\ wellFormed (worldOf [holedPage]) /\
  (exists cards, render (worldOf twoPages) = Ok cards (worldOf twoPages) /\
     exists card, cards !! 1 = Some card /\ card_number card = 2 /\
       (input_value <$> card_inputs card) = textPage (replicate 100 "A")) /\
  (exists cards, render (worldOf [holedPage]) = Ok cards (worldOf [holedPage]) /\
     exists card, cards !! 0 = Some card /\
       length (card_inputs card) = 101 /\
       (input_cell <$> card_inputs card) = (pair 0 <$> (seq 0 100 ++ [101]))).
Proof.
  split; [by_eval|]. split; [by_eval|]. split.
  - destruct (render_shows_document (worldOf twoPages) (worldOf_wellFormed _))
      as (cards & Hrun & _ & Hcards).
    exists cards. split; [exact Hrun|].
    destruct (Hcards 1 (textPage (replicate 100 "A")) eq_refl)
      as (card & Hc & Hnum & _ & _ & Hdense).
    exists card. split; [exact Hc|]. split; [exact Hnum|].
    apply Hdense. apply Forall_fmap, Forall_forall. intros s _. discriminate.
  - destruct (render_shows_document (worldOf [holedPage]) (worldOf_wellFormed _))
      as (cards & Hrun & _ & Hcards).
    exists cards. split; [exact Hrun|].
    destruct (Hcards 0 holedPage eq_refl) as (card & Hc & _ & _ & Hslots & _).
    exists card. split; [exact Hc|].
    apply (f_equal (fmap fst)) in Hslots as Hcells.
    rewrite <- !list_fmap_compose in Hcells.
    split.
    + apply (f_equal length) in Hcells. rewrite !length_fmap in Hcells.
      rewrite Hcells. vm_compute. reflexivity.
    + etransitivity; [exact Hcells|]. vm_compute. reflexivity.
Defined.

(** X18. Every element of the rendered page raises events its handler
    can take: each input belongs to an existing cell, whose value it
    shows, so its change and key events are enabled, and each Remove
    button carries the index of an existing page. *)
Theorem rendered_events_enabled (w : World) :
  wellFormed w ->
  exists cards, render w = Ok cards w /\
    (forall inp, In inp (inputsOf cards) ->
       cell w (input_cell inp).1 (input_cell inp).2 = Some (input_value inp) /\
       forall key value,
         enabled w (Change (input_cell inp).1 (input_cell inp).2 value) /\
         enabled w (KeyDown key (input_cell inp).1 (input_cell inp).2)) /\
    (forall card, In card cards ->
       forall confirmDelete, enabled w (RemovePage confirmDelete (card_remove card))).
Proof.
  intros Hwf. eexists. split; [by apply render_run|]. split.
  - intros inp Hin.
    apply inputsOf_In in Hin as (p & c & page & v & Hpage & Hv & _ & ->).
    simpl. assert (cell w p c = Some v) as Hcell by (unfold cell; by rewrite Hpage).
    split; [done|]. intros key value. rewrite Hcell. by split; eexists.
  - intros card Hin confirm. apply list_elem_of_In, list_elem_of_lookup in Hin as (i & Hi).
    rewrite list_lookup_imap in Hi.
    destruct (document w !! i) as [page|] eqn:Hpage; [|done].
    simpl in Hi. injection Hi as <-. simpl.
    apply lookup_lt_Some in Hpage. unfold document in Hpage.
    by rewrite deref_length in Hpage.
Qed.

Lemma rendered_events_enabled_witness :
  wellFormed (blankWorld 1) /\
  exists cards, render (blankWorld 1) = Ok cards (blankWorld 1) /\
    length (inputsOf cards) = 100.
Proof.
  split; [by_eval|].
  destruct (rendered_events_enabled (blankWorld 1) (worldOf_wellFormed _))
    as (cards & Hrun & _ & _).
  exists cards. split; [exact Hrun|].
  vm_compute in Hrun. injection Hrun as <-. reflexivity.
Defined.

(** *** Ids *)

Lemma digits_dash_inj (d d' : Decimal.uint) (r r' : string) :
  DecimalString.NilEmpty.string_of_uint d +:+ "-" +:+ r
  = DecimalString.NilEmpty.string_of_uint d' +:+ "-" +:+ r' ->
  d = d' /\ r = r'.
Proof.
  revert d'. induction d as [|d IH|d IH|d IH|d IH|d IH|d IH|d IH|d IH|d IH|d IH];
    intros [|d'|d'|d'|d'|d'|d'|d'|d'|d'|d']; simpl; intros H;
    try discriminate H;
    try (injection H as H; destruct (IH _ H) as [-> ->]; done).
  injection H as H. simpl in H. by subst.
Qed.

Lemma cellId_inj_aux (p c p' c' : nat) :
  cellId p c = cellId p' c' -> p = p' /\ c = c'.
Proof.
  unfold cellId, decimal. simpl. intros H. injection H as H.
  apply digits_dash_inj in H as [Hp Hc].
  apply DecimalNat.Unsigned.to_uint_inj in Hp.
  assert (Nat.to_uint c = Nat.to_uint c') as Hc'.
  { pose proof (DecimalString.NilEmpty.usu (Nat.to_uint c)) as H1.
    pose proof (DecimalString.NilEmpty.usu (Nat.to_uint c')) as H2.
    rewrite Hc in H1. rewrite H1 in H2. by injection H2. }
  by apply DecimalNat.Unsigned.to_uint_inj in Hc'.
Qed.

(** X19. Two cells have the same id only when they are the same cell, so
    no two inputs of the page share an id. *)
Theorem cellId_inj (p c p' c' : nat) :
  cellId p c = cellId p' c' <-> p = p' /\ c = c'.
Proof. split; [apply cellId_inj_aux|by intros [-> ->]]. Qed.

Lemma querySelector_cell_run (w : World) (p c : nat) :
  wellFormed w ->
  querySelector_cell p c w =
    Ok (match cell w p c with Some _ => Some (p, c) | None => None end) w.
Proof.
  intros [Hb _]. unfold querySelector_cell, cell, document.
  destruct (pages w !! p) as [ref|] eqn:Hp.
  - pose proof (Forall_lookup_1 _ _ _ _ Hb Hp) as Hlt. simpl in Hlt.
    destruct (lookup_lt_is_Some_2 _ _ Hlt) as [arr Harr].
    rewrite (deref_lookup _ _ _ _ Hp), Harr. simpl.
    destruct (decide (c < length arr)) as [Hin|Hin].
    + destruct (lookup_lt_is_Some_2 _ _ Hin) as [x Hx]. by rewrite Hx.
    + by rewrite (lookup_ge_None_2 arr c) by lia.
  - unfold deref. by rewrite list_lookup_fmap, Hp.
Qed.

(** X20. Looking an input up by its id string on the rendered page finds
    the input of that very cell, with its value, when the cell exists and
    its slot was not skipped, and nothing otherwise; for a cell whose slot
    was not skipped this is the element [handleKeyDown] goes on to
    focus. *)
Theorem querySelector_by_id (w : World) (p c : nat) :
  wellFormed w ->
  exists cards, render w = Ok cards w /\
    (forall v, cell w p c = Some v -> v <> JUndefined ->
       querySelector cards (cellId p c) = Some (mkInput (cellId p c) v (p, c))) /\
    (cell w p c = None \/ cell w p c = Some JUndefined ->
       querySelector cards (cellId p c) = None) /\
    (cell w p c <> Some JUndefined ->
       querySelector_cell p c w
       = Ok (input_cell <$> querySelector cards (cellId p c)) w).
Proof.
  intros Hwf. eexists. split; [by apply render_run|].
  assert (forall inp,
            querySelector (imap cardOf (document w)) (cellId p c) = Some inp ->
            exists v, cell w p c = Some v /\ isHole v = false /\
              inp = mkInput (cellId p c) v (p, c)) as Hsome.
  { intros inp Hfind. unfold querySelector in Hfind.
    fold (inputsOf (imap cardOf (document w))) in Hfind.
    apply find_some in Hfind as [Hin Hid].
    apply inputsOf_In in Hin as (p' & c' & page & v' & Hpage & Hv & Hhole & ->).
    cbn [input_id] in Hid. apply String.eqb_eq, cellId_inj_aux in Hid as [-> ->].
    exists v'. split; [|done]. unfold cell. by rewrite Hpage. }
  assert (forall v, cell w p c = Some v -> v <> JUndefined ->
            querySelector (imap cardOf (document w)) (cellId p c)
            = Some (mkInput (cellId p c) v (p, c))) as Hfound.
  { intros v Hcell Hv.
    destruct (querySelector _ _) as [inp|] eqn:Hfind.
    - destruct (Hsome inp eq_refl) as (v' & Hcell' & _ & ->). congruence.
    - exfalso. unfold querySelector in Hfind.
      fold (inputsOf (imap cardOf (document w))) in Hfind.
      unfold cell in Hcell.
      destruct (document w !! p) as [page|] eqn:Hpage; [|done]. simpl in Hcell.
      assert (In (mkInput (cellId p c) v (p, c)) (inputsOf (imap cardOf (document w))))
        as Hin.
      { apply inputsOf_In. exists p, c, page, v.
        split; [done|]. split; [done|]. split; [|done]. by destruct v. }
      pose proof (find_none _ _ Hfind _ Hin) as Hno. cbn [input_id] in Hno.
      by rewrite String.eqb_refl in Hno. }
  assert (cell w p c = None \/ cell w p c = Some JUndefined ->
          querySelector (imap cardOf (document w)) (cellId p c) = None) as Hmissing.
  { intros Hcell. destruct (querySelector _ _) as [inp|] eqn:Hfind; [|done].
    destruct (Hsome inp eq_refl) as (v' & Hcell' & Hhole & _).
    destruct Hcell as [Hcell|Hcell]; rewrite Hcell in Hcell'; [done|].
    injection Hcell' as <-. done. }
  split; [done|]. split; [done|]. intros Hnohole.
  rewrite querySelector_cell_run by done.
  destruct (cell w p c) as [v|] eqn:Hcell.
  - rewrite (Hfound v); [done|done|]. intros ->. by apply Hnohole.
  - rewrite Hmissing; [done|by left].
Qed.

Example cellId_sample : cellId 4 99 = "cell-4-99" /\ cellId 0 0 = "cell-0-0".
Proof. split; reflexivity. Qed.

Lemma querySelector_by_id_witness :
  wellFormed (worldOf twoPages) /\ wellFormed (worldOf [holedPage]) /\
  (exists cards, render (worldOf twoPages) = Ok cards (worldOf twoPages) /\
     querySelector cards "cell-1-0" = Some (mkInput "cell-1-0" (JStr "A") (1, 0)) /\
     querySelector cards "cell-2-0" = None) /\
  (exists cards, render (worldOf [holedPage]) = Ok cards (worldOf [holedPage]) /\
     querySelector cards "cell-0-100" = None /\
     querySelector cards "cell-0-101" = Some (mkInput "cell-0-101" (JStr "A") (0, 101))).
Proof.
  split; [by_eval|]. split; [by_eval|]. split.
  - destruct (querySelector_by_id (worldOf twoPages) 1 0 (worldOf_wellFormed _))
      as (cards & Hrun & Hfound & _ & _).
    exists cards. split; [exact Hrun|]. split.
    + apply (Hfound (JStr "A")); [reflexivity|discriminate].
    + vm_compute in Hrun. injection Hrun as <-. vm_compute. reflexivity.
  - destruct (querySelector_by_id (worldOf [holedPage]) 0 100 (worldOf_wellFormed _))
      as (cards & Hrun & _ & Hmissing & _).
    exists cards. split; [exact Hrun|]. split.
    + apply Hmissing. right. reflexivity.
    + vm_compute in Hrun. injection Hrun as <-. vm_compute. reflexivity.
Defined.

(** ** Editing, then printing *)

(** X21. What is typed is what is printed: after [handleChange] on an
    existing cell of a state with 100 cells a page, the slot of that cell
    on the print page of that page shows the new value, or a space when
    the value is the empty string. *)
Theorem handleChange_then_print (w : World) (pageIndex cellIndex : nat) (value : string) :
  invariant w -> is_Some (cell w pageIndex cellIndex) ->
  exists w' tree printed,
    handleChange pageIndex cellIndex value w = Ok tt w' /\
    MantraPDF (pages w') w' = Ok tree w' /\
    printPages tree !! pageIndex = Some printed /\
    concat (gridOf printed) !! cellIndex
    = Some (JStr (if decide (value = EmptyString) then " " else value)).
Proof.
  intros (Hwf & _ & Hcells) Hcell.
  destruct (cell_is_Some w _ _ Hwf Hcell) as (ref & arr & _ & _ & Hpage & Hc).
  pose proof (Forall_lookup_1 _ _ _ _ Hcells Hpage) as Hlen. simpl in Hlen.
  unfold cellsPerPage in Hlen.
  destruct (handleChange_document w pageIndex cellIndex arr value Hwf Hpage)
    as (w' & Hrun & Hwf' & Hdoc).
  exists w'. eexists. exists (pageNode pageIndex (array_put arr cellIndex (JStr value))).
  split; [done|]. split; [by apply MantraPDF_run|]. cbn [printPages]. split.
  - rewrite list_lookup_imap, Hdoc.
    by rewrite list_lookup_insert_eq by (by eapply lookup_lt_Some).
  - destruct (gridOf_pageNode pageIndex (array_put arr cellIndex (JStr value))) as [_ ->].
    rewrite list_lookup_fmap, lookup_seq_lt by lia. simpl.
    unfold array_at. rewrite array_put_lookup. simpl.
    unfold js_or. case_decide as Hv; [by subst|]. by destruct value.
Qed.

Lemma handleChange_then_print_witness :
  invariant (blankWorld 1) /\ is_Some (cell (blankWorld 1) 0 7) /\
  exists w' tree printed,
    handleChange 0 7 "A" (blankWorld 1) = Ok tt w' /\
    MantraPDF (pages w') w' = Ok tree w' /\
    printPages tree !! 0 = Some printed /\
    concat (gridOf printed) !! 7 = Some (JStr "A").
Proof.
  assert (invariant (blankWorld 1)) as Hinv.
  { split; [apply worldOf_wellFormed|]. unfold blankWorld. rewrite worldOf_document.
    split; [discriminate|]. by repeat constructor. }
  assert (is_Some (cell (blankWorld 1) 0 7)) as Hin by (vm_compute; eauto).
  split; [exact Hinv|]. split; [exact Hin|].
  destruct (handleChange_then_print (blankWorld 1) 0 7 "A" Hinv Hin)
    as (w' & tree & printed & Hrun & Hpdf & Hp & Hslot).
  exists w', tree, printed.
  split; [exact Hrun|]. split; [exact Hpdf|]. split; [exact Hp | exact Hslot].
Defined.
